(** * km-_to_xlsx: the KML/KMZ to spreadsheet converter (main.py)

    A shallow embedding of [main.py]: the coordinate parser [parse_kml], the
    container readers [read_kml_file], [read_kmz_file] and [read_file], the
    polygon metrics of [calcular_superficie_hectareas], and the loop of the
    "Transformar" button that fills the table and the list of errors.

    Conventions of the embedding.
    - A Python [str] is a [string] whose characters are the code points below
      256.
    - A Python [float] is represented by the rational number that is its
      value, in canonical form ([Qc]): equality of values is Leibniz
      equality, and the non-finite doubles are outside the model. What
      Python and the geometry library compute on floats ([float], the text
      of a float, the product, [round], the area and the centroid of a
      polygon) is not fixed by the model: these operations are parameters,
      and the exact arithmetic of the rationals is one instance of them, on
      which the model runs on examples.
    - A call that may raise returns an [outcome]; an exception is identified
      by the name of its class.
    - Python lists that are shared between the caller and the callee live in a
      [heap] and are passed by reference. *)

From Stdlib Require Import Ascii QArith Qcanon Qcabs Qround.
From stdpp Require Import base tactics option list strings numbers.

Local Open Scope Z_scope.
Set Warnings "-register-all,-clear-no-such-hyp".

(** ** Exceptions and outcomes *)

(** A raised exception, identified by the name of its class. *)
Inductive exn : Type := PyExc (cls : string).

Definition ParseError : exn := PyExc "ParseError".
Definition AttributeError : exn := PyExc "AttributeError".
Definition IndexError : exn := PyExc "IndexError".
Definition ValueError : exn := PyExc "ValueError".
Definition TypeError : exn := PyExc "TypeError".
Definition BadZipFile : exn := PyExc "BadZipFile".
Definition UnicodeDecodeError : exn := PyExc "UnicodeDecodeError".
Definition OSError : exn := PyExc "OSError".
Definition KeyError : exn := PyExc "KeyError".

Inductive outcome (A : Type) : Type :=
  | Ok (a : A)
  | Raise (e : exn).
Arguments Ok {A} a.
Arguments Raise {A} e.

Definition obind {A B} (m : outcome A) (k : A -> outcome B) : outcome B :=
  match m with
  | Ok a => k a
  | Raise e => Raise e
  end.

Notation "'try!' x <- m ; k" := (obind m (fun x => k))
  (at level 10, x name, m at level 100, k at level 200).

(** [for x in xs: acc.append(f(x))], stopping at the first exception. *)
Fixpoint for_each {A B} (f : A -> outcome B) (xs : list A) : outcome (list B) :=
  match xs with
  | [] => Ok []
  | x :: xs' =>
      try! y <- f x;
      try! ys <- for_each f xs';
      Ok (y :: ys)
  end.

(** [for x in xs: acc.extend(f(x))], stopping at the first exception. *)
Fixpoint for_each_extend {A B} (f : A -> outcome (list B)) (xs : list A)
  : outcome (list B) :=
  match xs with
  | [] => Ok []
  | x :: xs' =>
      try! ys <- f x;
      try! zs <- for_each_extend f xs';
      Ok (ys ++ zs)
  end.

(** ** The methods of [str] that the program uses *)

Module Str.

(** [c.isspace()] for a code point below 256: the ASCII white space, the
    separators 0x1c to 0x1f, NEL (0x85) and the no-break space (0xa0). *)
Definition isspace (c : ascii) : bool :=
  let n := Ascii.N_of_ascii c in
  (((9 <=? n) && (n <=? 13)) || ((28 <=? n) && (n <=? 32))
   || (n =? 133) || (n =? 160))%N.

Definition is_empty (s : string) : bool :=
  match s with
  | EmptyString => true
  | String _ _ => false
  end.

(** [s.lstrip()] *)
Fixpoint lstrip (s : string) : string :=
  match s with
  | EmptyString => EmptyString
  | String c s' => if isspace c then lstrip s' else s
  end.

(** [s.rstrip()] *)
Fixpoint rstrip (s : string) : string :=
  match s with
  | EmptyString => EmptyString
  | String c s' =>
      let r := rstrip s' in
      if isspace c && is_empty r then EmptyString else String c r
  end.

(** [s.strip()] *)
Definition strip (s : string) : string := rstrip (lstrip s).

(** The loop of [s.split()]: [w] is the word read so far. *)
Fixpoint split_from (w : string) (s : string) : list string :=
  match s with
  | EmptyString => if is_empty w then [] else [w]
  | String c s' =>
      if isspace c
      then (if is_empty w then split_from EmptyString s'
            else w :: split_from EmptyString s')
      else split_from (w +:+ String c EmptyString) s'
  end.

(** [s.split()]: the maximal runs of characters that are not white space. *)
Definition split (s : string) : list string := split_from EmptyString s.

(** The loop of [s.split(sep)] for a separator of one character: [w] is the
    field read so far. *)
Fixpoint split_on_from (sep : ascii) (w : string) (s : string) : list string :=
  match s with
  | EmptyString => [w]
  | String c s' =>
      if Ascii.eqb c sep
      then w :: split_on_from sep EmptyString s'
      else split_on_from sep (w +:+ String c EmptyString) s'
  end.

(** [s.split(sep)]: always at least one field. *)
Definition split_on (sep : ascii) (s : string) : list string :=
  split_on_from sep EmptyString s.

(** [c.lower()] for a code point below 256: the letters A to Z and the
    accented capitals 0xc0 to 0xde other than the multiplication sign. *)
Definition lower_char (c : ascii) : ascii :=
  let n := Ascii.N_of_ascii c in
  if (((65 <=? n) && (n <=? 90))
      || ((192 <=? n) && (n <=? 222) && negb (n =? 215)))%N
  then Ascii.ascii_of_N (n + 32) else c.

(** [s.lower()] *)
Fixpoint lower (s : string) : string :=
  match s with
  | EmptyString => EmptyString
  | String c s' => String (lower_char c) (lower s')
  end.

(** [s.endswith(suffix)] *)
Fixpoint endswith (suffix s : string) : bool :=
  match s with
  | EmptyString => is_empty suffix
  | String _ s' =>
      String.eqb s suffix || endswith suffix s'
  end.

End Str.

(** [l[i]] for an index counted from the front. *)
Definition getitem {A} (l : list A) (i : nat) : outcome A :=
  match l !! i with
  | Some x => Ok x
  | None => Raise IndexError
  end.

(** ** [os.path.splitext] *)

Module Path.

(** The part of a path after its last ["/"]; [acc] is the part after the last
    ["/"] read so far. *)
Fixpoint basename_from (acc s : string) : string :=
  match s with
  | EmptyString => acc
  | String c s' =>
      if Ascii.eqb c "/" then basename_from s' s' else basename_from acc s'
  end.

Definition basename (p : string) : string := basename_from p p.

(** The extension of a file name: from its last dot, provided a character
    other than a dot comes before that dot ([.kml] alone has no extension).
    [lead] tells that such a character has been read. *)
Fixpoint ext_from (lead : bool) (s : string) : string :=
  match s with
  | EmptyString => EmptyString
  | String c s' =>
      let later := ext_from (lead || negb (Ascii.eqb c ".")) s' in
      if Str.is_empty later
      then (if Ascii.eqb c "." && lead then s else EmptyString)
      else later
  end.

(** [os.path.splitext(p)[1]] *)
Definition splitext_ext (p : string) : string := ext_from false (basename p).

End Path.

(** ** The data model *)

(** A coordinate as [parse_kml] builds it: the tuple [(lon, lat)]. *)
Abbreviation coord := (Qc * Qc)%type.

(** An [xml.etree.ElementTree.Element]: its tag in the form [{uri}local], its
    [text] ([None] when the element has no character data before its first
    child) and its children in document order. *)
Inductive Element : Type :=
  mkElement (tag : string) (text : option string) (children : list Element).

Definition tag (e : Element) : string :=
  match e with mkElement t _ _ => t end.
Definition text (e : Element) : option string :=
  match e with mkElement _ t _ => t end.
Definition children (e : Element) : list Element :=
  match e with mkElement _ _ c => c end.

(** The text of a KML document, represented by what [ET.fromstring] makes of
    it: the parser raises [ParseError], or returns the root of the tree. *)
Inductive document : Type :=
  | NotWellFormed
  | WellFormed (root : Element).

(** The bytes of a file, represented by what the libraries make of them:
    [as_text] is the result of decoding them as UTF-8 ([None]: they are not
    valid UTF-8), [as_zip] the listing of the archive that [zipfile.ZipFile]
    finds in them, each entry with its name and its bytes ([None]: they are
    not a zip archive). *)
Inductive file_data : Type :=
  FileData (as_text : option document)
           (as_zip : option (list (string * file_data))).

Definition as_text (d : file_data) : option document :=
  match d with FileData t _ => t end.
Definition as_zip (d : file_data) : option (list (string * file_data)) :=
  match d with FileData _ z => z end.

(** A Streamlit [UploadedFile]: [file.name] and the bytes of [file.read()]. *)
Record UploadedFile : Type := mkUploadedFile {
  name : string;
  data : file_data
}.

(** The argument of [read_file]: a path ([str], [bytes] or [os.PathLike]) or
    an uploaded file object. *)
Inductive file_arg : Type :=
  | PathLike (path : string)
  | Uploaded (file : UploadedFile).

(** ** The built-in [float] *)

(** [float(s)], the text that an f-string gives a float, the product [x * y]
    of two floats and [round(x, 1)]. [float s = None] stands for the
    [ValueError] of a text that is not a number. *)
Class PyFloat : Type := {
  float : string -> option Qc;
  repr : Qc -> string;
  fmul : Qc -> Qc -> Qc;
  round1 : Qc -> Qc
}.

Section Parser.
Context `{PyFloat}.

Definition py_float (s : string) : outcome Qc :=
  match float s with
  | Some q => Ok q
  | None => Raise ValueError
  end.

(** ** [parse_kml] *)

(** [elem.iter()]: the element and its descendants, in document order. *)
Fixpoint iter (e : Element) : list Element :=
  match e with
  | mkElement _ _ cs => e :: flat_map iter cs
  end.

(** The tag that [kml:coordinates] stands for under the namespace map [ns]. *)
Definition kml_coordinates : string :=
  "{http://www.opengis.net/kml/2.2}coordinates".

(** [root.findall(".//kml:coordinates", ns)]: the elements below [root], at
    any depth, whose tag is [kml_coordinates]; [root] itself is not one of
    them. *)
Definition findall_coordinates (root : Element) : list Element :=
  filter (fun e => tag e = kml_coordinates) (flat_map iter (children root)).

(** Lines 26 to 28, for one [line] of the text. *)
Definition parse_line (line : string) : outcome coord :=
  let parts := Str.split_on "," line in
  try! p0 <- getitem parts 0;
  try! lon <- py_float p0;
  try! p1 <- getitem parts 1;
  try! lat <- py_float p1;
  Ok (lon, lat).

(** Lines 24 to 28, for one element: [elem.text.strip()] raises
    [AttributeError] when [elem.text] is [None]. *)
Definition parse_elem (elem : Element) : outcome (list coord) :=
  match text elem with
  | None => Raise AttributeError
  | Some t => for_each parse_line (Str.split (Str.strip t))
  end.

Definition parse_kml (kml_content : document) : outcome (list coord) :=
  match kml_content with
  | NotWellFormed => Raise ParseError
  | WellFormed root => for_each_extend parse_elem (findall_coordinates root)
  end.

(** ** The container readers *)

(** [f.read()] of a file opened as UTF-8 text, or [f.read().decode("utf-8")]. *)
Definition decode_utf8 (d : file_data) : outcome document :=
  match as_text d with
  | Some c => Ok c
  | None => Raise UnicodeDecodeError
  end.

(** [read_kml_file(filepath)]; the path is represented by the bytes of the
    file it names. *)
Definition read_kml_file (filepath : file_data) : outcome (list coord) :=
  try! content <- decode_utf8 filepath;
  parse_kml content.

(** [zipfile.ZipFile(filepath, "r")]: the entries of the archive in the
    order of its listing. *)
Definition ZipFile (filepath : file_data)
  : outcome (list (string * file_data)) :=
  match as_zip filepath with
  | Some entries => Ok entries
  | None => Raise BadZipFile
  end.

(** [z.namelist()]: the names of the entries, one per entry, in the order of
    the listing. *)
Definition namelist (z : list (string * file_data)) : list string :=
  map fst z.

(** The entry that the archive keeps under a name: the last one of the
    listing that has the name. *)
Fixpoint getinfo (z : list (string * file_data)) (name : string)
  : option file_data :=
  match z with
  | [] => None
  | (n, d) :: z' =>
      match getinfo z' name with
      | Some d' => Some d'
      | None => if String.eqb n name then Some d else None
      end
  end.

(** [z.open(name).read()]: the bytes of the entry kept under the name. *)
Definition zip_open (z : list (string * file_data)) (name : string)
  : outcome file_data :=
  match getinfo z name with
  | Some d => Ok d
  | None => Raise KeyError
  end.

Definition read_kmz_file (filepath : file_data) : outcome (list coord) :=
  try! z <- ZipFile filepath;
  for_each_extend
    (fun name : string =>
       if Str.endswith ".kml" name
       then (try! f <- zip_open z name;
             try! content <- decode_utf8 f;
             parse_kml content)
       else Ok [])
    (namelist z).

(** The number of bytes of a text in UTF-8, for code points below 256. *)
Fixpoint utf8_length (s : string) : nat :=
  match s with
  | EmptyString => 0
  | String c s' =>
      (if (Ascii.N_of_ascii c <? 128)%N then 1 else 2) + utf8_length s'
  end.

(** Whether a text holds the code point 0. *)
Fixpoint has_nul (s : string) : bool :=
  match s with
  | EmptyString => false
  | String c s' => (Ascii.N_of_ascii c =? 0)%N || has_nul s'
  end.

(** [tempfile.NamedTemporaryFile(delete=False, suffix=ext)] followed by
    [tmp.write(data)]: a file named [tmp], eight characters and the suffix,
    which holds the bytes. A name with the code point 0 is refused with
    [ValueError] before the operating system is asked, and the operating
    system refuses a file name of more than 255 bytes with [OSError]. *)
Definition NamedTemporaryFile (suffix : string) (data : file_data)
  : outcome file_data :=
  if has_nul suffix then Raise ValueError
  else if (255 <? 3 + 8 + utf8_length suffix)%nat then Raise OSError
  else Ok data.

(** [read_file(file)]. The result is [None] when the function falls off its
    end, which it does for every argument that is a path. The temporary file
    is made before the extension is looked at; it holds the bytes of the
    upload and is removed on every way out of the [try] statement. *)
Definition read_file (file : file_arg) : outcome (option (list coord)) :=
  match file with
  | PathLike _ => Ok None
  | Uploaded f =>
      let filename := name f in
      let ext := Str.lower (Path.splitext_ext filename) in
      try! tmp_path <- NamedTemporaryFile ext (data f);
      if String.eqb ext ".kml" then
        try! coords <- read_kml_file tmp_path; Ok (Some coords)
      else if String.eqb ext ".kmz" then
        try! coords <- read_kmz_file tmp_path; Ok (Some coords)
      else Raise ValueError
  end.

End Parser.

(** ** The geometry library *)

(** A [shapely.geometry.Polygon]: the coordinates of its shell, each one
    [(x, y)]. *)
Record polygon : Type := mkPolygon { exterior : list (Qc * Qc) }.

(** Modelled from the spec: the constructor [Polygon(shell)] belongs to the
    Shapely library, which is outside the repository. Degenerate input
    yields "an exception downstream" (section 3): a shell of fewer than
    three coordinates is refused with [ValueError], since a linear ring
    needs four coordinates and the library closes a ring of three itself;
    every longer shell is "accepted by construction" (section 4.3). The
    function of line 89 never hands over an empty shell. *)
Definition Polygon (shell : list (Qc * Qc)) : outcome polygon :=
  if (length shell <? 3)%nat then Raise ValueError else Ok (mkPolygon shell).

(** [poly.area] and [poly.centroid], the latter as the pair of [centroid.x]
    and [centroid.y]: what the library computes, in double precision, is a
    parameter of the model. *)
Class Shapely : Type := {
  area : polygon -> Qc;
  centroid : polygon -> Qc * Qc
}.

(** The geometry of exact arithmetic, as the specification describes the
    library: the area is the absolute value of the shoelace (signed area)
    formula on the ring, the centroid the area-weighted one of the standard
    formula. It gives the values of the library where the computation in
    double precision is exact and the area is not zero; with a zero area
    the division yields 0, where the library turns to the centroid of the
    boundary. *)
Module Planar.

Local Open Scope Qc_scope.

(** The term of the shoelace sum for the edge from [p] to [q]. *)
Definition cross (p q : Qc * Qc) : Qc := fst p * snd q - fst q * snd p.

(** Twice the signed area: the sum of [cross] over consecutive vertices. *)
Fixpoint shoelace (ring : list (Qc * Qc)) : Qc :=
  match ring with
  | p :: (q :: _) as tl => cross p q + shoelace tl
  | _ => 0
  end.

Definition signed_area (ring : list (Qc * Qc)) : Qc := shoelace ring / 2.

Definition area (poly : polygon) : Qc := Qcabs (signed_area (exterior poly)).

(** The sums of the centroid formula, six times the first moments. *)
Fixpoint moment_x (ring : list (Qc * Qc)) : Qc :=
  match ring with
  | p :: (q :: _) as tl => (fst p + fst q) * cross p q + moment_x tl
  | _ => 0
  end.

Fixpoint moment_y (ring : list (Qc * Qc)) : Qc :=
  match ring with
  | p :: (q :: _) as tl => (snd p + snd q) * cross p q + moment_y tl
  | _ => 0
  end.

Definition centroid (poly : polygon) : Qc * Qc :=
  let a := signed_area (exterior poly) in
  (moment_x (exterior poly) / (Qc_of_Z 6 * a),
   moment_y (exterior poly) / (Qc_of_Z 6 * a)).

End Planar.

Definition planar : Shapely :=
  {| area := Planar.area; centroid := Planar.centroid |}.

(** ** Lists shared by reference *)

(** A reference to a list object: its index in the heap. *)
Abbreviation ref := nat.

(** The list objects that have been created, each with its present items. *)
Abbreviation heap := (list (list coord)).

(** What the variable [coords] may hold: [None] or a list object. *)
Inductive value : Type :=
  | PyNone
  | PyList (r : ref).

(** The items of the list object [r]. *)
Definition items (h : heap) (r : ref) : list coord := default [] (h !! r).

(** A computation that reads and updates the heap and may raise; the heap
    keeps the updates made before the exception. *)
Definition M (A : Type) : Type := heap -> outcome A * heap.

Definition mret {A} (a : A) : M A := fun h => (Ok a, h).

Definition mbind {A B} (m : M A) (k : A -> M B) : M B :=
  fun h =>
    match m h with
    | (Ok a, h') => k a h'
    | (Raise e, h') => (Raise e, h')
    end.

Notation "'do!' x <- m ; k" := (mbind m (fun x => k))
  (at level 10, x name, m at level 100, k at level 200).

(** A call of a function that touches no shared list. *)
Definition lift {A} (o : outcome A) : M A := fun h => (o, h).

(** A list that a callee has built and returns: a new object. *)
Definition new_list (l : list coord) : M value :=
  fun h => (Ok (PyList (length h)), h ++ [l]).

(** [coords[i]], with Python's negative indices. *)
Definition subscript (coords : value) (i : Z) : M coord :=
  fun h =>
    match coords with
    | PyNone => (Raise TypeError, h)
    | PyList r =>
        let l := items h r in
        let n := Z.of_nat (length l) in
        let j := if i <? 0 then i + n else i in
        if (0 <=? j) && (j <? n)
        then (getitem l (Z.to_nat j), h)
        else (Raise IndexError, h)
    end.

(** [coords.append(x)]: the list object itself grows. *)
Definition append (coords : value) (x : coord) : M unit :=
  fun h =>
    match coords with
    | PyNone => (Raise AttributeError, h)
    | PyList r => (Ok tt, <[r := items h r ++ [x]]> h)
    end.

(** The items that iterating over [coords] yields. *)
Definition iterate (coords : value) : M (list coord) :=
  fun h =>
    match coords with
    | PyNone => (Raise TypeError, h)
    | PyList r => (Ok (items h r), h)
    end.

(** ** [calcular_superficie_hectareas] *)

(** Lines 84 to 86, the closure step: the first item is appended to the list
    object when it differs from the last one. *)
Definition close_ring (coords : value) : M unit :=
  do! first <- subscript coords 0;
  do! final <- subscript coords (-1);
  if decide (first <> final) then append coords first else mret tt.

Section Metrics.
Context `{PyFloat} `{Shapely}.

(** Lines 89 to 97 on the items of the closed list. The comprehension names
    the components of each tuple [lat, lon] and hands [(lon, lat)] to the
    polygon: the second component becomes [x], the first becomes [y]. The
    call of [print] is left out. *)
Definition polygon_metrics (ring : list coord) : outcome (Qc * string) :=
  try! poly <-
    Polygon (map (fun c : coord => let '(lat, lon) := c in (lon, lat)) ring);
  let area_ha := round1 (fmul (area poly) (Qc_of_Z 1000000)) in
  let x := fst (centroid poly) in
  let y := snd (centroid poly) in
  let centroid := repr y +:+ ", " +:+ repr x in
  Ok (area_ha, centroid).

Definition calcular_superficie_hectareas (coords : value) : M (Qc * string) :=
  do! _ <- close_ring coords;
  do! ring <- iterate coords;
  lift (polygon_metrics ring).

(** ** The "Transformar" button *)

(** A row of the table [df]; the cell [Poligono] holds the list object
    [coords] itself. *)
Record Row : Type := mkRow {
  Archivo : string;
  Poligono : value;
  Punto_Referencia : string;
  Superficie : Qc
}.

(** An item of [errores]: the text [filename], or the text
    [f"{filename} (error: {e})"]. *)
Inductive error_entry : Type :=
  | Ignored (filename : string)
  | Failed (filename : string) (e : exn).

(** The state of the loop: the list objects, [df] and [errores]. *)
Record state : Type := mkState {
  st_heap : heap;
  df : list Row;
  errores : list error_entry
}.

(** The body of the [try] statement, lines 140 to 142, up to the new row. *)
Definition try_body (file : UploadedFile) : M Row :=
  let filename := name file in
  do! result <- lift (read_file (Uploaded file));
  do! coords <- match result with
                | Some l => new_list l
                | None => mret PyNone
                end;
  do! r <- calcular_superficie_hectareas coords;
  let '(sup, centroid) := r in
  mret (mkRow filename coords centroid sup).

(** One turn of the loop over [uploaded_files], lines 134 to 144. *)
Definition process_file (st : state) (file : UploadedFile) : state :=
  let filename := name file in
  if negb (Str.endswith ".kmz" filename || Str.endswith ".kml" filename)
  then mkState (st_heap st) (df st) (errores st ++ [Ignored filename])
  else
    match try_body file (st_heap st) with
    | (Ok row, h) => mkState h (df st ++ [row]) (errores st)
    | (Raise e, h) => mkState h (df st) (errores st ++ [Failed filename e])
    end.

(** The loop, from the empty table and the empty list of errors. *)
Definition transformar (uploaded_files : list UploadedFile) : state :=
  foldl process_file (mkState [] [] []) uploaded_files.

(** A row as the table shows it: the items its list object holds. *)
Definition shown_row (h : heap) (row : Row)
  : string * option (list coord) * string * Qc :=
  (Archivo row,
   match Poligono row with PyNone => None | PyList r => Some (items h r) end,
   Punto_Referencia row, Superficie row).

(** The rows of the table after the loop. *)
Definition report_rows (st : state)
  : list (string * option (list coord) * string * Qc) :=
  map (shown_row (st_heap st)) (df st).

End Metrics.

(** ** A reading of decimal numerals *)

(** An instance of [PyFloat] on which the model runs: [float] reads a
    numeral with an optional sign, digits and an optional fraction, [repr]
    writes the decimal expansion, to 17 places at most, the product is the
    exact one and [round1] rounds the exact number, a tie to the even
    digit. They agree with Python where the numbers and the results have
    a short binary and decimal expansion, so that no operation rounds. *)
Module Decimal.

Definition digit (c : ascii) : option Z :=
  let n := Z.of_N (Ascii.N_of_ascii c) in
  if (48 <=? n) && (n <=? 57) then Some (n - 48) else None.

(** The digits at the front of [s]: their value after [acc], how many they
    are, and what follows them. *)
Fixpoint digits (acc : Z) (count : nat) (s : string) : Z * nat * string :=
  match s with
  | EmptyString => (acc, count, s)
  | String c s' =>
      match digit c with
      | Some d => digits (10 * acc + d) (S count) s'
      | None => (acc, count, s)
      end
  end.

Definition unsigned (s : string) : option Qc :=
  let '(i, ni, rest) := digits 0 0 s in
  match rest with
  | EmptyString => if Nat.eqb ni 0 then None else Some (Qc_of_Z i)
  | String c rest' =>
      if Ascii.eqb c "." then
        let '(f, nf, rest'') := digits 0 0 rest' in
        if Str.is_empty rest'' && negb (Nat.eqb (ni + nf) 0)
        then Some (Q2Qc (Qmake (i * 10 ^ Z.of_nat nf + f)
                               (Z.to_pos (10 ^ Z.of_nat nf))))
        else None
      else None
  end.

Definition float (s : string) : option Qc :=
  match s with
  | String "-" s' => Qcopp <$> unsigned s'
  | String "+" s' => unsigned s'
  | _ => unsigned s
  end.

Definition digit_char (d : Z) : ascii := Ascii.ascii_of_N (Z.to_N (48 + d)).

(** The decimal digits of the natural number [n], [fuel] of them at most. *)
Fixpoint nat_digits (fuel : nat) (n : Z) (acc : string) : string :=
  match fuel with
  | O => acc
  | S fuel' =>
      let acc' := String (digit_char (n mod 10)) acc in
      if n / 10 =? 0 then acc' else nat_digits fuel' (n / 10) acc'
  end.

(** The digits of [num / den] after the point, for [0 <= num < den]. *)
Fixpoint frac_digits (fuel : nat) (num den : Z) : string :=
  match fuel with
  | O => EmptyString
  | S fuel' =>
      if num =? 0 then EmptyString
      else String (digit_char (10 * num / den))
                  (frac_digits fuel' (10 * num mod den) den)
  end.

Definition repr (q : Qc) : string :=
  let n := Qnum q in
  let d := Z.pos (Qden q) in
  let a := Z.abs n in
  let fr := frac_digits 17 (a mod d) d in
  (if n <? 0 then "-" else EmptyString)
  +:+ nat_digits (S (Z.to_nat (Z.log2 (a / d)))) (a / d) EmptyString
  +:+ "." +:+ (if Str.is_empty fr then "0" else fr).

(** The integer nearest to [q], a tie going to the even one. *)
Definition round_half_even (q : Qc) : Z :=
  let f := Qfloor q in
  match (q - Qc_of_Z f ?= Q2Qc (1 # 2))%Qc with
  | Lt => f
  | Gt => f + 1
  | Eq => if Z.even f then f else f + 1
  end.

(** The number with one decimal that is nearest to [q]. *)
Definition round1 (q : Qc) : Qc :=
  (Qc_of_Z (round_half_even (q * Qc_of_Z 10)) / Qc_of_Z 10)%Qc.

End Decimal.

Definition decimal : PyFloat :=
  {| float := Decimal.float; repr := Decimal.repr;
     fmul := Qcmult; round1 := Decimal.round1 |}.


(** ** Vocabulary of the statements *)

(** The items of a list after the closure step. *)
Definition closure (l : list coord) : list coord :=
  match l, list.last l with
  | first :: _, Some final =>
      if decide (first <> final) then l ++ [first] else l
  | _, _ => l
  end.

Arguments closure : simpl never.

(** The exchange of components that line 89 applies to every coordinate. *)
Definition mirror (ring : list coord) : list (Qc * Qc) :=
  map (fun c : coord => let '(lat, lon) := c in (lon, lat)) ring.

(** Every list object that a row of the table refers to exists. *)
Definition rows_in_heap (h : heap) (rows : list Row) : Prop :=
  Forall (fun row => match Poligono row with
                     | PyNone => True
                     | PyList r => (r < length h)%nat
                     end) rows.

(** The file name that an item of [errores] carries. *)
Definition entry_filename (e : error_entry) : string :=
  match e with
  | Ignored filename => filename
  | Failed filename _ => filename
  end.

Section Vocabulary.
Context `{PyFloat}.

(** The line has at least two fields between commas, and [float] reads the
    first as [lon] and the second as [lat]; further fields are not looked
    at. *)
Definition line_pair (line : string) (c : coord) : Prop :=
  exists f0 f1 rest,
    Str.split_on "," line = f0 :: f1 :: rest
    /\ float f0 = Some (fst c) /\ float f1 = Some (snd c).

(** The lines that the text of an element holds: the runs of characters
    between white space. *)
Definition element_lines (e : Element) : list string :=
  Str.split (default EmptyString (text e)).

(** The element has a text, and each of its lines yields a pair. *)
Definition element_readable (e : Element) : Prop :=
  is_Some (text e)
  /\ Forall (fun line => exists c, line_pair line c) (element_lines e).

End Vocabulary.

(** ** Examples of documents and files *)

Definition kml_tag (local : string) : string :=
  "{http://www.opengis.net/kml/2.2}" +:+ local.

(** A KML document with one placemark whose ring has the given text. *)
Definition placemark_document (coordinates : option string) : document :=
  WellFormed
    (mkElement (kml_tag "kml") None
       [mkElement (kml_tag "Placemark") None
          [mkElement (kml_tag "name") (Some "lote") [];
           mkElement (kml_tag "Polygon") None
             [mkElement (kml_tag "outerBoundaryIs") None
                [mkElement (kml_tag "LinearRing") None
                   [mkElement (kml_tag "coordinates") coordinates []]]]]]).

(** A file that holds text and is no archive. *)
Definition text_file (content : document) : file_data :=
  FileData (Some content) None.

(** The rectangle with longitude from 0 to 2 and latitude from 0 to 1. *)
Definition rectangle_text : string := "0,0,0 2,0,0 2,1,0 0,1,0".
Definition rectangle : list coord :=
  [(Qc_of_Z 0, Qc_of_Z 0); (Qc_of_Z 2, Qc_of_Z 0);
   (Qc_of_Z 2, Qc_of_Z 1); (Qc_of_Z 0, Qc_of_Z 1)].

(** The square of the specification, with corners (0,0), (0,1), (1,1), (1,0). *)
Definition unit_square : list coord :=
  [(Qc_of_Z 0, Qc_of_Z 0); (Qc_of_Z 0, Qc_of_Z 1);
   (Qc_of_Z 1, Qc_of_Z 1); (Qc_of_Z 1, Qc_of_Z 0)].

(** ** Vocabulary of the further properties *)

(** [e] is below [root] in the tree: a child, or below a child. *)
Inductive below : Element -> Element -> Prop :=
  | below_child (root c : Element) :
      In c (children root) -> below root c
  | below_deeper (root c e : Element) :
      In c (children root) -> below c e -> below root e.

(** A character other than a dot occurs in [s]. *)
Fixpoint has_nondot (s : string) : bool :=
  match s with
  | EmptyString => false
  | String c s' => negb (Ascii.eqb c ".") || has_nondot s'
  end.


(** Neither a dot nor a ["/"] occurs in [s]. *)
Fixpoint plain (s : string) : bool :=
  match s with
  | EmptyString => true
  | String c s' => negb (Ascii.eqb c ".") && negb (Ascii.eqb c "/") && plain s'
  end.

(** A document whose elements carry no namespace. *)
Definition unqualified_document : Element :=
  mkElement "kml" None
    [mkElement "Placemark" None
       [mkElement "coordinates" (Some rectangle_text) []]].

(** The entries of an archive with two documents and an image between
    them. *)
Definition two_documents : list (string * file_data) :=
  [("a.kml", text_file (placemark_document (Some "0,0 2,0")));
   ("icon.png", FileData None None);
   ("b.kml", text_file (placemark_document (Some "2,1 0,1")))].


(** * Properties *)

(** ** Evaluation of closed terms over [Qc] *)

(** Two canonical rationals are equal when their fractions are; the tactic
    takes an equation between evaluated results apart down to such pairs. *)
Ltac qc_parts :=
  repeat match goal with
    | |- @eq Qc _ _ => apply Qc_is_canon; reflexivity
    | |- @eq string _ _ => reflexivity
    | |- @eq exn _ _ => reflexivity
    | |- @eq unit _ _ => reflexivity
    | |- @eq (outcome _) (Raise _) (Raise _) => reflexivity
    | |- Ok _ = Ok _ => f_equal
    | |- Some _ = Some _ => f_equal
    | |- @eq (option _) None None => reflexivity
    | |- (_ , _) = (_ , _) => f_equal
    | |- @eq (list _) [] [] => reflexivity
    | |- (_ :: _) = (_ :: _) => f_equal
    | |- mkRow _ _ _ _ = mkRow _ _ _ _ => f_equal
    | |- mkState _ _ _ = mkState _ _ _ => f_equal
    | |- PyList _ = PyList _ => reflexivity
    end.

Ltac qc_eval := vm_compute; qc_parts.

(** ** The methods of [str] *)

Lemma split_from_lstrip s :
  Str.split_from EmptyString (Str.lstrip s) = Str.split_from EmptyString s.
Proof.
  induction s as [|c s IH]; simpl; [reflexivity|].
  destruct (Str.isspace c) eqn:Hc; simpl; [exact IH|].
  rewrite Hc. reflexivity.
Qed.

Lemma split_from_rstrip s : forall w,
  Str.split_from w (Str.rstrip s) = Str.split_from w s.
Proof.
  induction s as [|c s IH]; intros w; simpl; [reflexivity|].
  destruct (Str.isspace c) eqn:Hc; simpl.
  - destruct (Str.is_empty (Str.rstrip s)) eqn:He; simpl.
    + assert (Hnil : Str.split_from EmptyString s = []).
      { rewrite <- IH. destruct (Str.rstrip s); [reflexivity|discriminate]. }
      rewrite Hnil. destruct (Str.is_empty w); reflexivity.
    + rewrite Hc, IH. reflexivity.
  - rewrite Hc. apply IH.
Qed.

(** The call of [strip] before [split] changes nothing. *)
Lemma split_strip s : Str.split (Str.strip s) = Str.split s.
Proof.
  unfold Str.split, Str.strip.
  rewrite split_from_rstrip. apply split_from_lstrip.
Qed.

(** ** Loops that stop at the first exception *)

Lemma for_each_Ok {A B} (f : A -> outcome B) (R : A -> B -> Prop) xs :
  (forall x y, f x = Ok y -> R x y) ->
  Forall (fun x => exists y, f x = Ok y) xs ->
  exists ys, for_each f xs = Ok ys /\ Forall2 R xs ys.
Proof.
  intros HR Hall. induction Hall as [|x xs [y Hy] _ [ys [Hys HF]]]; simpl.
  - exists []. split; [reflexivity|constructor].
  - exists (y :: ys). rewrite Hy, Hys. simpl. split; [reflexivity|].
    constructor; auto.
Qed.

(** ** [parse_kml] *)

Section ParserFacts.
Context `{PyFloat}.

Lemma parse_line_pair line c : parse_line line = Ok c <-> line_pair line c.
Proof.
  unfold parse_line, line_pair, getitem, py_float. split.
  - destruct (Str.split_on "," line) as [|f0 [|f1 rest]] eqn:Hs; simpl;
      try discriminate.
    + destruct (float f0); discriminate.
    + destruct (float f0) as [lon|] eqn:H0; simpl; [|discriminate].
      destruct (float f1) as [lat|] eqn:H1; simpl; [|discriminate].
      intros [= <-]. exists f0, f1, rest. auto.
  - intros (f0 & f1 & rest & -> & H0 & H1). simpl.
    rewrite H0. simpl. rewrite H1. simpl. destruct c; reflexivity.
Qed.

Lemma parse_elem_readable e :
  element_readable e ->
  exists cs, parse_elem e = Ok cs /\ Forall2 line_pair (element_lines e) cs.
Proof.
  intros [[t Ht] Hlines]. unfold parse_elem, element_lines in *.
  rewrite Ht in *. simpl in Hlines. simpl. rewrite split_strip.
  apply for_each_Ok.
  - intros x y. apply parse_line_pair.
  - eapply List.Forall_impl; [|exact Hlines]. intros line [c Hc].
    exists c. apply parse_line_pair. exact Hc.
Qed.

Lemma parse_elems_readable es :
  Forall element_readable es ->
  exists cs, for_each_extend parse_elem es = Ok cs
             /\ Forall2 line_pair (flat_map element_lines es) cs.
Proof.
  induction 1 as [|e es He _ (cs & Hcs & HF)]; simpl.
  - exists []. split; [reflexivity|constructor].
  - destruct (parse_elem_readable e He) as (c1 & Hc1 & HF1).
    exists (c1 ++ cs). rewrite Hc1, Hcs. simpl. split; [reflexivity|].
    apply Forall2_app; assumption.
Qed.

End ParserFacts.

Section ParserClaims.
Context `{PyFloat}.

Lemma for_each_inv {A B} (f : A -> outcome B) xs ys :
  for_each f xs = Ok ys -> Forall (fun x => exists y, f x = Ok y) xs.
Proof.
  revert ys. induction xs as [|x xs IH]; intros ys; simpl; [constructor|].
  destruct (f x) as [y|] eqn:Hy; simpl; [|discriminate].
  destruct (for_each f xs) as [ys'|] eqn:Hys; simpl; [|discriminate].
  intros _. constructor; eauto.
Qed.

Lemma parse_elem_inv e cs : parse_elem e = Ok cs -> element_readable e.
Proof.
  unfold parse_elem, element_readable, element_lines.
  destruct (text e) as [t|]; [|discriminate]. simpl.
  rewrite split_strip. intros Hcs. split; [eauto|].
  eapply List.Forall_impl; [|exact (for_each_inv _ _ _ Hcs)].
  intros line [c Hc]. exists c. apply parse_line_pair. exact Hc.
Qed.

(** [parse_kml] returns on a well-formed document exactly when every
    element that [findall] selects has a text whose lines all yield a pair;
    otherwise one of [AttributeError], [ValueError] and [IndexError]
    leaves the function. *)
Lemma parse_kml_returns_iff root :
  (exists cs, parse_kml (WellFormed root) = Ok cs)
  <-> Forall element_readable (findall_coordinates root).
Proof.
  simpl. split.
  - intros [cs Hcs]. revert cs Hcs.
    induction (findall_coordinates root) as [|e es IH]; intros cs; simpl;
      [constructor|].
    destruct (parse_elem e) as [c1|] eqn:He; simpl; [|discriminate].
    destruct (for_each_extend parse_elem es) as [c2|] eqn:Hes; simpl;
      [|discriminate].
    intros _. constructor; [eapply parse_elem_inv; eauto|eapply IH; eauto].
  - intros Hall. destruct (parse_elems_readable _ Hall) as (cs & Hcs & _).
    eauto.
Qed.

(** C5, as amended: for every well-formed document in which each
    [kml:coordinates] element below the root has a text whose lines all have
    two leading fields that [float] reads, [parse_kml] returns exactly one
    pair per line of those elements, in document order, the first field as
    longitude and the second as latitude, whatever follows the second
    field. *)
Theorem parse_kml_pairs root :
  Forall element_readable (findall_coordinates root) ->
  exists coords,
    parse_kml (WellFormed root) = Ok coords
    /\ Forall2 line_pair
         (flat_map element_lines (findall_coordinates root)) coords.
Proof. intros Hall. simpl. apply parse_elems_readable. exact Hall. Qed.

(** C3: an element [<coordinates></coordinates>] has no text, and
    [elem.text.strip()] raises [AttributeError] on it, where the claim has
    the element contribute no pair; a text of white space alone does
    contribute none. *)
Theorem parse_kml_empty_coordinates :
  parse_kml (placemark_document None) = Raise AttributeError
  /\ parse_kml (placemark_document (Some "  
  ")) = Ok [].
Proof. split; vm_compute; reflexivity. Qed.

End ParserClaims.

(** A document whose lines carry an altitude, read with [decimal]. *)
Lemma parse_kml_pairs_witness :
  exists coords,
    @parse_kml decimal (placemark_document (Some rectangle_text)) = Ok coords
    /\ Forall2 (@line_pair decimal)
         (flat_map element_lines
            (findall_coordinates
               (mkElement (kml_tag "kml") None
                  [mkElement (kml_tag "Placemark") None
                     [mkElement (kml_tag "name") (Some "lote") [];
                      mkElement (kml_tag "Polygon") None
                        [mkElement (kml_tag "outerBoundaryIs") None
                           [mkElement (kml_tag "LinearRing") None
                              [mkElement (kml_tag "coordinates")
                                 (Some rectangle_text) []]]]]])))
         coords.
Proof.
  apply (@parse_kml_pairs decimal).
  assert (Hsel : forall t,
    findall_coordinates
      (mkElement (kml_tag "kml") None
         [mkElement (kml_tag "Placemark") None
            [mkElement (kml_tag "name") (Some "lote") [];
             mkElement (kml_tag "Polygon") None
               [mkElement (kml_tag "outerBoundaryIs") None
                  [mkElement (kml_tag "LinearRing") None
                     [mkElement (kml_tag "coordinates") t []]]]]])
    = [mkElement (kml_tag "coordinates") t []])
    by (intros t; vm_compute; reflexivity).
  rewrite Hsel. constructor; [|constructor].
  split; [eexists; reflexivity|].
  assert (Hl : @element_lines
                 (mkElement (kml_tag "coordinates") (Some rectangle_text) [])
               = ["0,0,0"; "2,0,0"; "2,1,0"; "0,1,0"])
    by (vm_compute; reflexivity).
  rewrite Hl.
  repeat (apply List.Forall_cons;
          [eexists (_, _); eexists _, _, _;
           split; [vm_compute; reflexivity|];
           split; vm_compute; reflexivity|]).
  apply List.Forall_nil.
Defined.

(** The document of the witness yields the four corners of the rectangle. *)
Example parse_kml_rectangle :
  @parse_kml decimal (placemark_document (Some rectangle_text)) = Ok rectangle.
Proof. qc_eval. Qed.

(** C5, counterexample: a document whose root is itself a [kml:coordinates]
    element with the line [1,2] is well formed, yet [findall] with the path
    [.//kml:coordinates] selects only elements below the root and the
    function returns no pair for that line. *)
Lemma parse_kml_skips_root :
  let root := mkElement kml_coordinates (Some "1,2") [] in
  ~ exists coords,
      @parse_kml decimal (WellFormed root) = Ok coords
      /\ Forall2 (@line_pair decimal)
           (flat_map element_lines
              (filter (fun e => tag e = kml_coordinates) (iter root)))
           coords.
Proof.
  intros root [coords [Hp HF]].
  assert (Hl : flat_map (@element_lines)
                 (filter (fun e => tag e = kml_coordinates) (iter root))
               = ["1,2"]) by (vm_compute; reflexivity).
  assert (Hc : @parse_kml decimal (WellFormed root) = Ok [])
    by (vm_compute; reflexivity).
  rewrite Hl in HF. rewrite Hc in Hp. injection Hp as <-. inversion HF.
Qed.

(** ** The geometry of a mirrored ring *)

Section Mirror.
Local Open Scope Qc_scope.

Lemma cross_mirror (p q : Qc * Qc) :
  Planar.cross (snd p, fst p) (snd q, fst q) = - Planar.cross p q.
Proof. unfold Planar.cross. cbn [fst snd]. ring. Qed.

Lemma mirror_cons (c : coord) ring :
  mirror (c :: ring) = (snd c, fst c) :: mirror ring.
Proof. destruct c. reflexivity. Qed.

Lemma shoelace_step p q tl :
  Planar.shoelace (p :: q :: tl)
  = Planar.cross p q + Planar.shoelace (q :: tl).
Proof. reflexivity. Qed.

Lemma moment_x_step p q tl :
  Planar.moment_x (p :: q :: tl)
  = (fst p + fst q) * Planar.cross p q + Planar.moment_x (q :: tl).
Proof. reflexivity. Qed.

Lemma moment_y_step p q tl :
  Planar.moment_y (p :: q :: tl)
  = (snd p + snd q) * Planar.cross p q + Planar.moment_y (q :: tl).
Proof. reflexivity. Qed.

Lemma shoelace_mirror ring :
  Planar.shoelace (mirror ring) = - Planar.shoelace ring.
Proof.
  induction ring as [|p [|q ring] IH].
  - apply Qc_is_canon. reflexivity.
  - rewrite mirror_cons. apply Qc_is_canon. reflexivity.
  - rewrite mirror_cons, (mirror_cons q), !shoelace_step, <- mirror_cons.
    rewrite IH, cross_mirror. ring.
Qed.

Lemma moment_x_mirror ring :
  Planar.moment_x (mirror ring) = - Planar.moment_y ring.
Proof.
  induction ring as [|p [|q ring] IH].
  - apply Qc_is_canon. reflexivity.
  - rewrite mirror_cons. apply Qc_is_canon. reflexivity.
  - rewrite mirror_cons, (mirror_cons q), moment_x_step, moment_y_step,
      <- mirror_cons.
    rewrite IH, cross_mirror. cbn [fst snd]. ring.
Qed.

Lemma moment_y_mirror ring :
  Planar.moment_y (mirror ring) = - Planar.moment_x ring.
Proof.
  induction ring as [|p [|q ring] IH].
  - apply Qc_is_canon. reflexivity.
  - rewrite mirror_cons. apply Qc_is_canon. reflexivity.
  - rewrite mirror_cons, (mirror_cons q), moment_x_step, moment_y_step,
      <- mirror_cons.
    rewrite IH, cross_mirror. cbn [fst snd]. ring.
Qed.

Lemma signed_area_mirror ring :
  Planar.signed_area (mirror ring) = - Planar.signed_area ring.
Proof.
  unfold Planar.signed_area. rewrite shoelace_mirror.
  unfold Qcdiv. ring.
Qed.


Lemma Qcdiv_opp_opp (m d : Qc) : - m / - d = m / d.
Proof.
  destruct (decide (d = 0)) as [->|Hd].
  - unfold Qcdiv. replace (- 0) with 0 by ring.
    replace (/ 0) with 0 by (apply Qc_is_canon; reflexivity). ring.
  - field. split; [exact Hd|].
    intros Hopp. apply Hd. rewrite <- (Qcopp_involutive d), Hopp. ring.
Qed.

(** The centroid of the mirrored polygon is the mirrored centroid. *)
Lemma centroid_mirror ring :
  Planar.centroid (mkPolygon (mirror ring))
  = (snd (Planar.centroid (mkPolygon ring)),
     fst (Planar.centroid (mkPolygon ring))).
Proof.
  unfold Planar.centroid. simpl.
  rewrite signed_area_mirror, moment_x_mirror, moment_y_mirror.
  replace (Qc_of_Z 6 * - Planar.signed_area ring)
    with (- (Qc_of_Z 6 * Planar.signed_area ring)) by ring.
  rewrite !Qcdiv_opp_opp. reflexivity.
Qed.

End Mirror.

(** ** The list object of [calcular_superficie_hectareas] *)

Lemma items_lookup (h : heap) r l : h !! r = Some l -> items h r = l.
Proof. unfold items. intros ->. reflexivity. Qed.

Lemma subscript_first (h : heap) r c l :
  items h r = c :: l -> subscript (PyList r) 0 h = (Ok c, h).
Proof. unfold subscript. intros ->. reflexivity. Qed.

Lemma subscript_final (h : heap) r c l :
  items h r = c :: l ->
  exists z, list.last (c :: l) = Some z
            /\ subscript (PyList r) (-1) h = (Ok z, h).
Proof.
  unfold subscript. intros ->.
  destruct (list.last (c :: l)) as [z|] eqn:Hz;
    [|apply last_None in Hz; discriminate].
  exists z. split; [reflexivity|].
  replace (-1 <? 0) with true by reflexivity.
  set (n := Z.of_nat (length (c :: l))).
  assert (Hn : 0 < n) by (subst n; simpl; lia).
  replace ((0 <=? -1 + n) && (-1 + n <? n)) with true
    by (symmetry; apply andb_true_intro; split; lia).
  unfold getitem. rewrite last_lookup in Hz.
  replace (Z.to_nat (-1 + n)) with (Nat.pred (length (c :: l)))
    by (subst n; simpl; lia).
  rewrite Hz. reflexivity.
Qed.

Lemma subscript_empty (h : heap) r i :
  items h r = [] -> subscript (PyList r) i h = (Raise IndexError, h).
Proof.
  unfold subscript. intros ->. cbn [length]. change (Z.of_nat 0) with 0.
  destruct ((0 <=? (if i <? 0 then i + 0 else i))
            && ((if i <? 0 then i + 0 else i) <? 0)) eqn:E; [|reflexivity].
  apply andb_prop in E as [E1 E2]. destruct (i <? 0); lia.
Qed.

Lemma closure_cons c l :
  closure (c :: l)
  = if decide (Some c = list.last (c :: l)) then c :: l else (c :: l) ++ [c].
Proof.
  unfold closure. destruct (list.last (c :: l)) as [z|] eqn:Hz.
  - destruct (decide (c <> z)) as [Hne|Heq], (decide (Some c = Some z));
      try reflexivity; [congruence|].
    exfalso. apply Heq. congruence.
  - apply last_None in Hz. discriminate.
Qed.

(** The closure step on a list object that is not empty: it returns, and the
    object holds the closure of its items. *)
Lemma close_ring_run (h : heap) r c l :
  h !! r = Some (c :: l) ->
  close_ring (PyList r) h = (Ok tt, <[r := closure (c :: l)]> h).
Proof.
  intros Hr. pose proof (items_lookup _ _ _ Hr) as Hi.
  unfold close_ring, mbind. rewrite (subscript_first _ _ _ _ Hi).
  destruct (subscript_final _ _ _ _ Hi) as (z & Hz & ->).
  rewrite closure_cons, Hz.
  destruct (decide (c <> z)) as [Hne|Heq],
           (decide (Some c = Some z)) as [He|Hn]; simpl.
  - congruence.
  - unfold append. rewrite Hi. reflexivity.
  - unfold mret. rewrite list_insert_id; [reflexivity|exact Hr].
  - destruct (decide (c = z)) as [E|E]; [subst; contradiction|].
    exfalso. apply Heq. exact E.
Qed.

Lemma close_ring_empty (h : heap) r :
  items h r = [] -> close_ring (PyList r) h = (Raise IndexError, h).
Proof.
  intros Hi. unfold close_ring, mbind. rewrite (subscript_empty _ _ _ Hi).
  reflexivity.
Qed.

Lemma closure_closed c l :
  list.last (closure (c :: l)) = head (closure (c :: l)).
Proof.
  rewrite closure_cons. destruct (decide (Some c = list.last (c :: l))) as [He|_].
  - rewrite <- He. reflexivity.
  - rewrite last_snoc. reflexivity.
Qed.

Lemma closure_idempotent l : closure (closure l) = closure l.
Proof.
  destruct l as [|c l]; [reflexivity|].
  pose proof (closure_closed c l) as Hc.
  destruct (closure (c :: l)) as [|c' l'] eqn:Hcl; [reflexivity|].
  rewrite closure_cons. simpl in Hc. rewrite Hc.
  destruct (decide (Some c' = Some c')); [reflexivity|congruence].
Qed.

(** ** The metrics engine *)

Section MetricsFacts.
Context `{PyFloat} `{Shapely}.

(** On a list object that is not empty the function returns or raises what
    lines 89 to 97 do on the closed items, and the object holds the closed
    items afterwards. *)
Lemma calcular_run (h : heap) r c l :
  h !! r = Some (c :: l) ->
  calcular_superficie_hectareas (PyList r) h
  = (polygon_metrics (closure (c :: l)), <[r := closure (c :: l)]> h).
Proof.
  intros Hr. unfold calcular_superficie_hectareas, mbind.
  rewrite (close_ring_run _ _ _ _ Hr). unfold iterate, items, lift.
  rewrite list_lookup_insert_eq by (eapply lookup_lt_Some; exact Hr).
  reflexivity.
Qed.

Lemma calcular_empty (h : heap) r :
  items h r = [] ->
  calcular_superficie_hectareas (PyList r) h = (Raise IndexError, h).
Proof.
  intros Hi. unfold calcular_superficie_hectareas, mbind.
  rewrite (close_ring_empty _ _ Hi). reflexivity.
Qed.

Lemma length_mirror (ring : list coord) : length (mirror ring) = length ring.
Proof. apply length_map. Qed.

(** Lines 89 to 97 on a ring of three coordinates or more. *)
Lemma polygon_metrics_long (ring : list coord) :
  (3 <= length ring)%nat ->
  polygon_metrics ring
  = Ok (round1 (fmul (area (mkPolygon (mirror ring))) (Qc_of_Z 1000000)),
        repr (snd (centroid (mkPolygon (mirror ring))))
        +:+ ", " +:+ repr (fst (centroid (mkPolygon (mirror ring))))).
Proof.
  intros Hlen. unfold polygon_metrics, Polygon. fold (mirror ring).
  rewrite length_mirror.
  destruct (length ring <? 3)%nat eqn:Hlt; [|reflexivity].
  apply Nat.ltb_lt in Hlt. lia.
Qed.

(** Lines 89 to 97 on a ring of one or two coordinates. *)
Lemma polygon_metrics_short (ring : list coord) :
  (length ring < 3)%nat -> polygon_metrics ring = Raise ValueError.
Proof.
  intros Hlen. unfold polygon_metrics, Polygon. fold (mirror ring).
  rewrite length_mirror. apply Nat.ltb_lt in Hlen. rewrite Hlen. reflexivity.
Qed.

(** A list that is not closed has three items or more once it is. *)
Lemma closure_open_long (c : coord) l :
  Some c <> list.last (c :: l) -> (3 <= length (closure (c :: l)))%nat.
Proof.
  intros Hopen. rewrite closure_cons.
  destruct (decide (Some c = list.last (c :: l))); [contradiction|].
  destruct l as [|c' l]; [destruct Hopen; reflexivity|].
  rewrite length_app. simpl. lia.
Qed.

(** C7: on a list object that is not empty the closure step returns and
    leaves the closure of the items in the object; the closure is the items
    with the first one appended exactly when the first item differs from the
    last, and the items themselves exactly when they are equal; a second
    closure step changes nothing. *)
Theorem close_ring_closure (h : heap) r c l :
  h !! r = Some (c :: l) ->
  close_ring (PyList r) h = (Ok tt, <[r := closure (c :: l)]> h)
  /\ (closure (c :: l) = (c :: l) ++ [c] <-> Some c <> list.last (c :: l))
  /\ (closure (c :: l) = c :: l <-> Some c = list.last (c :: l))
  /\ (Some c = list.last (c :: l) -> close_ring (PyList r) h = (Ok tt, h))
  /\ close_ring (PyList r) (<[r := closure (c :: l)]> h)
     = (Ok tt, <[r := closure (c :: l)]> h).
Proof.
  intros Hr.
  assert (Hlen : forall x : coord, (c :: l) ++ [x] <> c :: l).
  { intros x Heq. apply (f_equal length) in Heq.
    rewrite length_app in Heq. simpl in Heq. lia. }
  split; [exact (close_ring_run _ _ _ _ Hr)|].
  split; [|split; [|split]].
  - rewrite closure_cons.
    destruct (decide (Some c = list.last (c :: l))) as [He|Hne].
    + split; [intros Heq; symmetry in Heq; destruct (Hlen _ Heq)|congruence].
    + split; [intros _; exact Hne|reflexivity].
  - rewrite closure_cons.
    destruct (decide (Some c = list.last (c :: l))) as [He|Hne].
    + split; [intros _; exact He|reflexivity].
    + split; [intros Heq; destruct (Hlen _ Heq)|congruence].
  - intros He. rewrite (close_ring_run _ _ _ _ Hr), closure_cons.
    destruct (decide (Some c = list.last (c :: l))); [|contradiction].
    rewrite list_insert_id; [reflexivity|exact Hr].
  - pose proof (closure_idempotent (c :: l)) as Hid.
    assert (Hr' : <[r := closure (c :: l)]> h !! r = Some (closure (c :: l))).
    { apply list_lookup_insert_eq. eapply lookup_lt_Some. exact Hr. }
    destruct (closure (c :: l)) as [|c' l'] eqn:Hcl.
    + rewrite closure_cons in Hcl. destruct (decide _); discriminate.
    + rewrite (close_ring_run _ _ _ _ Hr'), Hid, list_insert_insert_eq.
      reflexivity.
Qed.

(** C2, as amended: on the empty coordinate sequence the function fails
    before any polygon is built, with the [IndexError] that the subscript
    [coords[0]] of line 84 raises; the list is left as it was. *)
Theorem calcular_empty_IndexError (h : heap) r :
  h !! r = Some [] ->
  calcular_superficie_hectareas (PyList r) h = (Raise IndexError, h).
Proof. intros Hr. apply calcular_empty, items_lookup, Hr. Qed.

End MetricsFacts.

Lemma close_ring_closure_witness :
  close_ring (PyList 0%nat) [rectangle]
  = (Ok tt, <[0%nat := closure rectangle]> [rectangle]).
Proof.
  apply (close_ring_closure [rectangle] 0%nat (Qc_of_Z 0, Qc_of_Z 0)
           [(Qc_of_Z 2, Qc_of_Z 0); (Qc_of_Z 2, Qc_of_Z 1);
            (Qc_of_Z 0, Qc_of_Z 1)]).
  reflexivity.
Defined.

Lemma calcular_empty_IndexError_witness :
  @calcular_superficie_hectareas decimal planar (PyList 0%nat) [[]]
  = (Raise IndexError, [[]]).
Proof.
  apply (@calcular_empty_IndexError decimal planar [[]] 0%nat). reflexivity.
Defined.

(** C2, counterexample: the empty sequence does not make the function raise
    an [EmptyGeometryError]; the exception is the one of the subscript. *)
Lemma calcular_empty_not_EmptyGeometryError :
  fst (@calcular_superficie_hectareas decimal planar (PyList 0%nat) [[]])
  <> Raise (PyExc "EmptyGeometryError").
Proof. vm_compute. discriminate. Qed.




(** C1: the rectangle with longitudes from 0 to 2 and latitudes from 0 to 1
    has its centroid at longitude 1 and latitude 0.5. The function returns
    the text [1.0, 0.5], longitude first, where the claim has latitude
    first, [0.5, 1.0]: the polygon is built with the latitudes as [x]. *)
Theorem centroid_text_of_rectangle :
  @calcular_superficie_hectareas decimal planar (PyList 0%nat) [rectangle]
  = (Ok (Qc_of_Z 2000000, "1.0, 0.5"), [rectangle ++ [(Qc_of_Z 0, Qc_of_Z 0)]])
  /\ Planar.centroid (mkPolygon (closure rectangle))
     = (Qc_of_Z 1, Q2Qc (1 # 2))
  /\ Decimal.repr (Q2Qc (1 # 2)) +:+ ", " +:+ Decimal.repr (Qc_of_Z 1)
     = "0.5, 1.0".
Proof.
  split; [|split].
  - vm_compute. qc_parts.
  - vm_compute. qc_parts.
  - vm_compute. reflexivity.
Qed.

(** ** The container readers *)

Section ReaderFacts.
Context `{PyFloat}.

Lemma for_each_extend_app {A B} (f : A -> outcome (list B)) xs ys :
  for_each_extend f (xs ++ ys)
  = (try! a <- for_each_extend f xs;
     try! b <- for_each_extend f ys;
     Ok (a ++ b)).
Proof.
  induction xs as [|x xs IH]; simpl.
  - destruct (for_each_extend f ys); reflexivity.
  - destruct (f x) as [c|]; simpl; [|reflexivity]. rewrite IH.
    destruct (for_each_extend f xs) as [a|]; simpl; [|reflexivity].
    destruct (for_each_extend f ys) as [b|]; simpl; [|reflexivity].
    rewrite app_assoc. reflexivity.
Qed.

Lemma for_each_extend_skip {A B} (f : A -> outcome (list B)) xs :
  Forall (fun x => f x = Ok []) xs -> for_each_extend f xs = Ok [].
Proof.
  induction 1 as [|x xs Hx _ IH]; simpl; [reflexivity|].
  rewrite Hx, IH. reflexivity.
Qed.

(** The temporary file is made when its name fits. *)
Lemma NamedTemporaryFile_cases suffix (d : file_data) :
  NamedTemporaryFile suffix d
  = if has_nul suffix then Raise ValueError
    else if (244 <? utf8_length suffix)%nat then Raise OSError
    else Ok d.
Proof.
  unfold NamedTemporaryFile. destruct (has_nul suffix); [reflexivity|].
  destruct (244 <? utf8_length suffix)%nat eqn:Hlong.
  - apply Nat.ltb_lt in Hlong.
    replace (255 <? 3 + 8 + utf8_length suffix)%nat with true
      by (symmetry; apply Nat.ltb_lt; lia).
    reflexivity.
  - apply Nat.ltb_ge in Hlong.
    replace (255 <? 3 + 8 + utf8_length suffix)%nat with false
      by (symmetry; apply Nat.ltb_ge; lia).
    reflexivity.
Qed.

(** [read_file] on an uploaded file: the extension, in lower case, selects
    the reader; with any other extension the call raises, first of all what
    the making of the temporary file raises and else the [ValueError] of
    line 68. *)
Lemma read_file_dispatch (f : UploadedFile) :
  (Str.lower (Path.splitext_ext (name f)) = ".kml" ->
   read_file (Uploaded f)
   = (try! coords <- read_kml_file (data f); Ok (Some coords)))
  /\ (Str.lower (Path.splitext_ext (name f)) = ".kmz" ->
      read_file (Uploaded f)
      = (try! coords <- read_kmz_file (data f); Ok (Some coords)))
  /\ (Str.lower (Path.splitext_ext (name f)) <> ".kml" ->
      Str.lower (Path.splitext_ext (name f)) <> ".kmz" ->
      read_file (Uploaded f)
      = if has_nul (Str.lower (Path.splitext_ext (name f)))
        then Raise ValueError
        else if (244 <? utf8_length (Str.lower (Path.splitext_ext (name f))))%nat
             then Raise OSError
             else Raise ValueError).
Proof.
  simpl. split; [|split].
  - intros ->. reflexivity.
  - intros ->. reflexivity.
  - intros Hkml Hkmz. rewrite NamedTemporaryFile_cases.
    destruct (has_nul _); [reflexivity|].
    destruct (244 <? _)%nat; [reflexivity|].
    apply String.eqb_neq in Hkml, Hkmz. simpl. rewrite Hkml, Hkmz.
    reflexivity.
Qed.

(** An uploaded file never makes [read_file] return [None]. *)
Lemma read_file_uploaded_not_None (f : UploadedFile) :
  read_file (Uploaded f) <> Ok None.
Proof.
  simpl. destruct (NamedTemporaryFile _ (data f)) as [tmp|]; simpl;
    [|discriminate].
  destruct (String.eqb _ ".kml").
  - destruct (read_kml_file tmp); discriminate.
  - destruct (String.eqb _ ".kmz"); [|discriminate].
    destruct (read_kmz_file tmp); discriminate.
Qed.

(** No entry of the listing has the name. *)
Lemma getinfo_None (z : list (string * file_data)) name :
  Forall (fun e : string * file_data => fst e <> name) z ->
  getinfo z name = None.
Proof.
  induction 1 as [|[n d] z Hn _ IH]; simpl; [reflexivity|].
  rewrite IH. simpl in Hn. apply String.eqb_neq in Hn. rewrite Hn.
  reflexivity.
Qed.

(** The entry kept under a name is the last of the listing that has it. *)
Lemma getinfo_last (before after : list (string * file_data)) name d :
  Forall (fun e : string * file_data => fst e <> name) after ->
  getinfo (before ++ (name, d) :: after) name = Some d.
Proof.
  intros Hafter. induction before as [|[n d'] before IH]; simpl.
  - rewrite (getinfo_None _ _ Hafter), String.eqb_refl. reflexivity.
  - rewrite IH. reflexivity.
Qed.

Lemma for_each_extend_fmap {A B C} (g : A -> B) (f : B -> outcome (list C))
    xs :
  for_each_extend f (map g xs) = for_each_extend (fun x => f (g x)) xs.
Proof.
  induction xs as [|x xs IH]; simpl; [reflexivity|]. rewrite IH. reflexivity.
Qed.

(** C8: an archive in which exactly one entry has a name that ends in [.kml]
    is read as the bytes of that entry are read as a KML file: the same
    coordinate sequence, or the same exception; so are two uploads with the
    extensions [.kmz] and [.kml] that hold the archive and the entry. *)
Theorem kmz_single_entry_round_trip
    (before after : list (string * file_data)) (entry_name : string)
    (kml : file_data) (other : option document) (kmz_name kml_name : string) :
  Str.endswith ".kml" entry_name = true ->
  Forall (fun e : string * file_data => Str.endswith ".kml" (fst e) = false)
    (before ++ after) ->
  Str.lower (Path.splitext_ext kmz_name) = ".kmz" ->
  Str.lower (Path.splitext_ext kml_name) = ".kml" ->
  let archive := FileData other (Some (before ++ (entry_name, kml) :: after)) in
  read_kmz_file archive = read_kml_file kml
  /\ read_file (Uploaded (mkUploadedFile kmz_name archive))
     = read_file (Uploaded (mkUploadedFile kml_name kml)).
Proof.
  intros Hname Hothers Hkmz Hkml archive.
  assert (Hround : read_kmz_file archive = read_kml_file kml).
  { apply Forall_app in Hothers as [Hb Ha].
    assert (Hopen : zip_open (before ++ (entry_name, kml) :: after) entry_name
                    = Ok kml).
    { unfold zip_open. rewrite getinfo_last; [reflexivity|].
      eapply List.Forall_impl; [|exact Ha]. intros e He Heq. simpl in He.
      rewrite Heq, Hname in He. discriminate He. }
    unfold read_kmz_file, archive, ZipFile, namelist. cbn [as_zip obind].
    rewrite for_each_extend_fmap, for_each_extend_app. cbn [for_each_extend].
    rewrite !for_each_extend_skip.
    - cbn [obind fst]. rewrite Hname, Hopen. unfold read_kml_file.
      cbn [obind].
      destruct (decode_utf8 kml) as [content|]; cbn [obind]; [|reflexivity].
      destruct (parse_kml content) as [cs|]; cbn [obind]; [|reflexivity].
      rewrite app_nil_r. reflexivity.
    - eapply List.Forall_impl; [|exact Ha]. intros e He. simpl in He.
      rewrite He. reflexivity.
    - eapply List.Forall_impl; [|exact Hb]. intros e He. simpl in He.
      rewrite He. reflexivity. }
  split; [exact Hround|].
  rewrite (proj1 (proj2 (read_file_dispatch
                           (mkUploadedFile kmz_name archive))) Hkmz).
  rewrite (proj1 (read_file_dispatch (mkUploadedFile kml_name kml)) Hkml).
  simpl data. rewrite Hround. reflexivity.
Qed.

End ReaderFacts.

(** An archive with an image, the document of the rectangle and a text. *)
Lemma kmz_single_entry_round_trip_witness :
  let archive :=
    FileData None
      (Some ([("files/icon.png", FileData None None)]
             ++ ("doc.kml", text_file (placemark_document (Some rectangle_text)))
                :: [("LEEME.txt", FileData None None)])) in
  @read_kmz_file decimal archive
  = @read_kml_file decimal (text_file (placemark_document (Some rectangle_text)))
  /\ @read_file decimal (Uploaded (mkUploadedFile "Lote 7.KMZ" archive))
     = @read_file decimal
         (Uploaded (mkUploadedFile "lote7.kml"
            (text_file (placemark_document (Some rectangle_text))))).
Proof.
  apply (@kmz_single_entry_round_trip decimal
           [("files/icon.png", FileData None None)]
           [("LEEME.txt", FileData None None)] "doc.kml"
           (text_file (placemark_document (Some rectangle_text))) None
           "Lote 7.KMZ" "lote7.kml").
  - reflexivity.
  - repeat constructor.
  - reflexivity.
  - reflexivity.
Defined.

(** C4: an upload named [CAMPO.KML] with a valid document. [read_file]
    lowers the extension and reads it, but the loop of the button tests the
    name with [endswith] as it is spelt, puts the file among the ignored ones
    and never calls [read_file]. A path with another extension makes
    [read_file] return [None] where the claim has it fail. *)
Theorem uppercase_extension_is_ignored :
  let file :=
    mkUploadedFile "CAMPO.KML"
      (text_file (placemark_document (Some rectangle_text))) in
  @read_file decimal (Uploaded file) = Ok (Some rectangle)
  /\ errores (@transformar decimal planar [file]) = [Ignored "CAMPO.KML"]
  /\ df (@transformar decimal planar [file]) = []
  /\ @read_file decimal (PathLike "campo.gpx") = Ok None.
Proof.
  repeat split; vm_compute; qc_parts.
Qed.

(** ** The loop of the button *)

Section BatchFacts.
Context `{PyFloat} `{Shapely}.

Lemma lookup_new (h : heap) (l : list coord) : (h ++ [l]) !! length h = Some l.
Proof. apply list_lookup_middle. reflexivity. Qed.

Lemma insert_new (h : heap) (l l' : list coord) :
  <[length h := l']> (h ++ [l]) = h ++ [l'].
Proof.
  rewrite insert_app_r_alt by lia. rewrite Nat.sub_diag. reflexivity.
Qed.

(** The body of the [try] statement, by what [read_file] returns. The list
    that [read_file] returns becomes a new object, which the metrics close in
    place before they build the polygon and before the row takes it. *)
Lemma try_body_run (file : UploadedFile) (h : heap) :
  try_body file h
  = match read_file (Uploaded file) with
    | Raise e => (Raise e, h)
    | Ok None => (Raise TypeError, h)
    | Ok (Some []) => (Raise IndexError, h ++ [[]])
    | Ok (Some (c :: l)) =>
        match polygon_metrics (closure (c :: l)) with
        | Ok (sup, centroid) =>
            (Ok (mkRow (name file) (PyList (length h)) centroid sup),
             h ++ [closure (c :: l)])
        | Raise e => (Raise e, h ++ [closure (c :: l)])
        end
    end.
Proof.
  unfold try_body, mbind, lift.
  destruct (read_file (Uploaded file)) as [[[|c l]|]|e]; try reflexivity.
  - unfold new_list. rewrite calcular_empty; [reflexivity|].
    apply items_lookup, lookup_new.
  - unfold new_list. rewrite (calcular_run _ _ c l) by apply lookup_new.
    rewrite insert_new.
    destruct (polygon_metrics (closure (c :: l))) as [[sup centroid]|e];
      reflexivity.
Qed.

Lemma shown_rows_app (h h2 : heap) rows :
  rows_in_heap h rows ->
  map (shown_row (h ++ h2)) rows = map (shown_row h) rows.
Proof.
  induction 1 as [|row rows Hrow _ IH]; simpl; [reflexivity|].
  rewrite IH. f_equal. unfold shown_row.
  destruct (Poligono row) as [|r]; [reflexivity|].
  unfold items. rewrite lookup_app_l by exact Hrow. reflexivity.
Qed.

Lemma rows_in_heap_app (h h2 : heap) rows :
  rows_in_heap h rows -> rows_in_heap (h ++ h2) rows.
Proof.
  unfold rows_in_heap. intros Hrows.
  eapply List.Forall_impl; [|exact Hrows].
  intros row Hr. cbv beta in Hr |- *. destruct (Poligono row); [exact I|].
  rewrite length_app. lia.
Qed.

Lemma transformar_one (f : UploadedFile) :
  transformar [f] = process_file (mkState [] [] []) f.
Proof. reflexivity. Qed.

(** One turn of the loop adds to the rows and to the errors what the file
    yields when it is processed on its own, and changes no earlier row. *)
Lemma process_file_frame (st : state) (f : UploadedFile) :
  rows_in_heap (st_heap st) (df st) ->
  rows_in_heap (st_heap (process_file st f)) (df (process_file st f))
  /\ report_rows (process_file st f)
     = report_rows st ++ report_rows (transformar [f])
  /\ errores (process_file st f) = errores st ++ errores (transformar [f]).
Proof.
  intros Hwf. rewrite transformar_one. unfold process_file, report_rows.
  destruct (negb _); simpl.
  { rewrite app_nil_r. auto. }
  rewrite !try_body_run.
  destruct (read_file (Uploaded f)) as [[[|c l]|]|e]; simpl;
    rewrite ?app_nil_r.
  - split; [apply rows_in_heap_app, Hwf|].
    split; [apply shown_rows_app, Hwf|reflexivity].
  - destruct (polygon_metrics (closure (c :: l))) as [[sup centroid]|e];
      simpl; rewrite ?app_nil_r.
    + split.
      * apply Forall_app. split; [apply rows_in_heap_app, Hwf|].
        constructor; [|constructor]. simpl. rewrite length_app. simpl. lia.
      * split; [|reflexivity].
        rewrite map_app, (shown_rows_app _ _ _ Hwf). simpl. f_equal.
        unfold shown_row, items. simpl. rewrite lookup_new. reflexivity.
    + split; [apply rows_in_heap_app, Hwf|].
      split; [apply shown_rows_app, Hwf|reflexivity].
  - auto.
  - auto.
Qed.

Lemma foldl_process_file (files : list UploadedFile) : forall st,
  rows_in_heap (st_heap st) (df st) ->
  report_rows (foldl process_file st files)
  = report_rows st
    ++ flat_map (fun f => report_rows (transformar [f])) files
  /\ errores (foldl process_file st files)
     = errores st ++ flat_map (fun f => errores (transformar [f])) files.
Proof.
  induction files as [|f files IH]; intros st Hwf; simpl.
  - rewrite !app_nil_r. auto.
  - destruct (process_file_frame st f Hwf) as (Hwf' & Hrows & Herrs).
    destruct (IH _ Hwf') as [-> ->]. rewrite Hrows, Herrs, <- !app_assoc.
    auto.
Qed.

(** A file on its own yields one row and no error, or one error and no row,
    and either carries the name of the file. *)
Lemma transformar_one_outcome (f : UploadedFile) :
  (errores (transformar [f]) = []
   /\ exists coords centroid sup,
        report_rows (transformar [f]) = [(name f, coords, centroid, sup)])
  \/ (report_rows (transformar [f]) = []
      /\ exists entry, errores (transformar [f]) = [entry]
                       /\ entry_filename entry = name f).
Proof.
  rewrite transformar_one. unfold process_file, report_rows.
  destruct (negb _); simpl.
  { right. split; [reflexivity|]. eexists. split; reflexivity. }
  rewrite try_body_run.
  destruct (read_file (Uploaded f)) as [[[|c l]|]|e]; simpl.
  - right. split; [reflexivity|]. eexists. split; reflexivity.
  - destruct (polygon_metrics (closure (c :: l))) as [[sup centroid]|e];
      simpl.
    + left. split; [reflexivity|]. eexists _, _, _. reflexivity.
    + right. split; [reflexivity|]. eexists. split; reflexivity.
  - right. split; [reflexivity|]. eexists. split; reflexivity.
  - right. split; [reflexivity|]. eexists. split; reflexivity.
Qed.

(** The rows and the errors of a batch are those of its files, each taken
    on its own, in the order of the files. *)
Lemma transformar_batch (files : list UploadedFile) :
  report_rows (transformar files)
  = flat_map (fun f => report_rows (transformar [f])) files
  /\ errores (transformar files)
     = flat_map (fun f => errores (transformar [f])) files.
Proof.
  unfold transformar at 1 3.
  apply (foldl_process_file files (mkState [] [] [])). constructor.
Qed.


(** C10: the metrics append the first item to the list object itself when
    the items are not closed, and the row of the file refers to that object:
    wherever the file stands in a batch, its row shows the coordinates that
    [read_file] returned followed by the closing point. *)
Theorem report_row_holds_closing_point
    (file : UploadedFile) (c : coord) (l : list coord)
    (before after : list UploadedFile) :
  Str.endswith ".kmz" (name file) || Str.endswith ".kml" (name file) = true ->
  read_file (Uploaded file) = Ok (Some (c :: l)) ->
  Some c <> list.last (c :: l) ->
  (forall (h : heap) r,
     h !! r = Some (c :: l) ->
     snd (calcular_superficie_hectareas (PyList r) h) !! r
     = Some ((c :: l) ++ [c]))
  /\ exists centroid sup,
       (name file, Some ((c :: l) ++ [c]), centroid, sup)
       ∈ report_rows (transformar (before ++ file :: after)).
Proof.
  intros Hname Hread Hopen.
  assert (Hcl : closure (c :: l) = (c :: l) ++ [c]).
  { rewrite closure_cons. destruct (decide _); [contradiction|reflexivity]. }
  split.
  - intros h r Hr. rewrite (calcular_run _ _ _ _ Hr). simpl. rewrite Hcl.
    apply list_lookup_insert_eq. eapply lookup_lt_Some. exact Hr.
  - destruct (transformar_batch (before ++ file :: after)) as [-> _].
    eexists _, _. rewrite flat_map_app. apply elem_of_app. right.
    simpl. apply elem_of_app. left.
    rewrite transformar_one. unfold process_file, report_rows.
    rewrite Hname. simpl. rewrite try_body_run, Hread.
    rewrite (polygon_metrics_long _ (closure_open_long _ _ Hopen)). simpl.
    unfold shown_row, items. simpl. rewrite Hcl. apply list_elem_of_here.
Qed.

End BatchFacts.


Lemma report_row_holds_closing_point_witness :
  let file :=
    mkUploadedFile "lote1.kml"
      (text_file (placemark_document (Some rectangle_text))) in
  exists centroid sup,
    ("lote1.kml", Some (rectangle ++ [(Qc_of_Z 0, Qc_of_Z 0)]), centroid, sup)
    ∈ report_rows (@transformar decimal planar ([] ++ file :: [])).
Proof.
  intros file.
  apply (@report_row_holds_closing_point decimal planar file (Qc_of_Z 0, Qc_of_Z 0)
           [(Qc_of_Z 2, Qc_of_Z 0); (Qc_of_Z 2, Qc_of_Z 1);
            (Qc_of_Z 0, Qc_of_Z 1)] [] []).
  - reflexivity.
  - vm_compute. qc_parts.
  - vm_compute. intros Heq. inversion Heq.
Defined.

(** ** The model on examples *)

Example split_example :
  Str.split (Str.strip "  -58.1,-34.2,0
    -58.0,-34.2 ") = ["-58.1,-34.2,0"; "-58.0,-34.2"].
Proof. reflexivity. Qed.

Example split_on_example :
  Str.split_on "," "a,,b" = ["a"; EmptyString; "b"]
  /\ Str.split_on "," EmptyString = [EmptyString].
Proof. split; reflexivity. Qed.

Example endswith_example :
  Str.endswith ".kml" "a.kml" = true /\ Str.endswith ".kml" "a.KML" = false
  /\ Str.endswith ".kml" "kml" = false.
Proof. repeat split; reflexivity. Qed.

Example splitext_example :
  Path.splitext_ext "a.b.kml" = ".kml" /\ Path.splitext_ext ".kml" = EmptyString
  /\ Path.splitext_ext "dir.d/lote" = EmptyString
  /\ Path.splitext_ext "lote." = "." /\ Path.splitext_ext "..kmz" = EmptyString
  /\ Str.lower (Path.splitext_ext "Lote 7.KmZ") = ".kmz".
Proof. repeat split; reflexivity. Qed.

Example decimal_example :
  Decimal.float "-58.25" = Some (Q2Qc (-5825 # 100))
  /\ Decimal.float "1e5" = None /\ Decimal.float EmptyString = None
  /\ Decimal.repr (Q2Qc (-5825 # 100)) = "-58.25"
  /\ Decimal.repr (Qc_of_Z 1000000) = "1000000.0".
Proof. repeat split; vm_compute; qc_parts. Qed.

(** A line with one field, a line whose first field is no number, and a
    line whose second field is empty. *)
Example parse_line_errors :
  @parse_line decimal "12.5" = Raise IndexError
  /\ @parse_line decimal "abc" = Raise ValueError
  /\ @parse_line decimal "12.5," = Raise ValueError
  /\ @parse_kml decimal NotWellFormed = Raise ParseError.
Proof. repeat split; vm_compute; reflexivity. Qed.

(** The square of the specification, through the whole function. *)
Example unit_square_metrics :
  @calcular_superficie_hectareas decimal planar (PyList 0%nat) [unit_square]
  = (Ok (Qc_of_Z 1000000, "0.5, 0.5"),
     [unit_square ++ [(Qc_of_Z 0, Qc_of_Z 0)]]).
Proof. vm_compute. qc_parts. Qed.

(** * Further properties *)

(** ** The elements that [findall] selects *)

(** Induction on a tree, with the property known for all the children. *)
Lemma Element_children_ind (P : Element -> Prop) :
  (forall t x cs, List.Forall P cs -> P (mkElement t x cs)) ->
  forall e, P e.
Proof.
  intros IH. fix rec 1. intros [t x cs]. apply IH.
  induction cs as [|c cs IHcs]; constructor; [apply rec|exact IHcs].
Qed.

Lemma in_iter e : forall e', In e' (iter e) <-> e' = e \/ below e e'.
Proof.
  induction e as [t x cs IH] using Element_children_ind.
  intros e'. simpl. rewrite in_flat_map. split.
  - intros [Heq|(c & Hc & Hin)]; [left; congruence|right].
    rewrite List.Forall_forall in IH.
    apply (IH c Hc) in Hin as [->|Hbelow].
    + apply below_child. exact Hc.
    + eapply below_deeper; [exact Hc|exact Hbelow].
  - intros [->|Hbelow]; [left; reflexivity|right].
    rewrite List.Forall_forall in IH.
    inversion Hbelow as [r c Hc|r c e0 Hc Hdeep]; subst; simpl in Hc.
    + exists e'. split; [exact Hc|]. apply (IH e' Hc). left. reflexivity.
    + exists c. split; [exact Hc|]. apply (IH c Hc). right. exact Hdeep.
Qed.

Lemma in_findall_coordinates root e :
  e ∈ findall_coordinates root
  <-> below root e /\ tag e = kml_coordinates.
Proof.
  unfold findall_coordinates.
  rewrite list_elem_of_filter, list_elem_of_In, in_flat_map. split.
  - intros (Htag & c & Hc & Hin). split; [|exact Htag].
    apply in_iter in Hin as [->|Hbelow].
    + apply below_child. exact Hc.
    + eapply below_deeper; [exact Hc|exact Hbelow].
  - intros (Hbelow & Htag). split; [exact Htag|].
    inversion Hbelow as [r c Hc|r c e0 Hc Hdeep]; subst.
    + exists e. split; [exact Hc|]. apply in_iter. left. reflexivity.
    + exists c. split; [exact Hc|]. apply in_iter. right. exact Hdeep.
Qed.

(** X1: [findall] with the path [.//kml:coordinates] selects exactly the
    elements below the root, at any depth, that carry the tag. *)
Theorem findall_coordinates_below root e :
  e ∈ findall_coordinates root
  <-> below root e /\ tag e = kml_coordinates.
Proof. apply in_findall_coordinates. Qed.

Lemma findall_coordinates_none root :
  (forall e, below root e -> tag e <> kml_coordinates) ->
  findall_coordinates root = [].
Proof.
  intros Hnone. destruct (findall_coordinates root) as [|e es] eqn:Hsel;
    [reflexivity|].
  assert (Hin : e ∈ findall_coordinates root)
    by (rewrite Hsel; apply list_elem_of_here).
  apply in_findall_coordinates in Hin as [Hb Ht].
  destruct (Hnone e Hb Ht).
Qed.

(** ** The lines of a coordinates element *)

Section LineFacts.
Context `{PyFloat}.

Lemma split_on_from_cons sep w s :
  exists f0 rest, Str.split_on_from sep w s = f0 :: rest.
Proof.
  revert w. induction s as [|c s IH]; intros w; simpl; [eauto|].
  destruct (Ascii.eqb c sep); eauto.
Qed.

(** X2: what a line makes lines 26 to 28 do, by its fields between commas:
    [IndexError] exactly when it has a single field and that field is a
    number, [ValueError] exactly when the first field is no number or the
    second one is there and is no number; no other exception leaves. *)
Theorem parse_line_errors_iff line :
  (parse_line line = Raise IndexError
   <-> exists f0, Str.split_on "," line = [f0] /\ is_Some (float f0))
  /\ (parse_line line = Raise ValueError
      <-> exists f0 rest,
            Str.split_on "," line = f0 :: rest
            /\ (float f0 = None
                \/ exists f1 rest', rest = f1 :: rest' /\ float f1 = None))
  /\ (forall e, parse_line line = Raise e -> e = IndexError \/ e = ValueError).
Proof.
  unfold parse_line, getitem, py_float.
  destruct (split_on_from_cons "," EmptyString line) as (f0 & rest & Hs).
  unfold Str.split_on. rewrite Hs. simpl. unfold is_Some.
  destruct (float f0) as [lon|] eqn:H0; simpl;
    [destruct rest as [|f1 rest']; simpl;
     [|destruct (float f1) as [lat|] eqn:H1; simpl]|];
    (split; [|split]);
    try (intros e He; injection He as <-; auto; fail);
    try (intros e He; discriminate He);
    (split; [intros He; try discriminate He|intros Hex]);
    try reflexivity; try naive_solver.
Qed.

(** X3: the call of [strip] on line 24 changes nothing: an element with a
    text is read as the lines of [text.split()], so white space before,
    after and between the lines, of any kind and amount, is of no
    consequence, and a text of white space alone yields no pair. *)
Theorem parse_elem_lines t x cs :
  parse_elem (mkElement t (Some x) cs) = for_each parse_line (Str.split x)
  /\ parse_elem (mkElement t (Some (Str.strip x)) cs)
     = parse_elem (mkElement t (Some x) cs)
  /\ (Str.split x = [] -> parse_elem (mkElement t (Some x) cs) = Ok []).
Proof.
  unfold parse_elem. simpl. rewrite !split_strip.
  split; [reflexivity|]. split; [reflexivity|]. intros ->. reflexivity.
Qed.

(** X4: [parse_kml] returns on a well-formed document exactly when every
    selected element has a text whose lines all have two leading fields that
    are numbers. *)
Theorem parse_kml_returns_exactly root :
  (exists cs, parse_kml (WellFormed root) = Ok cs)
  <-> Forall element_readable (findall_coordinates root).
Proof. apply parse_kml_returns_iff. Qed.

End LineFacts.

(** ** File names and extensions *)

Lemma endswith_prefix suffix s :
  Str.endswith suffix s = true -> exists p, s = p +:+ suffix.
Proof.
  induction s as [|c s IH]; cbn [Str.endswith].
  - destruct suffix; [|discriminate]. intros _. exists EmptyString. reflexivity.
  - intros Hor. apply orb_prop in Hor as [Heq|Hend].
    + apply String.eqb_eq in Heq. exists EmptyString. rewrite <- Heq.
      reflexivity.
    + destruct (IH Hend) as [p ->]. exists (String c p). reflexivity.
Qed.

Lemma basename_from_plain acc x :
  plain x = true -> Path.basename_from acc x = acc.
Proof.
  revert acc. induction x as [|c x IH]; intros acc; simpl; [reflexivity|].
  intros Hp. apply andb_prop in Hp as [Hc Hx]. apply andb_prop in Hc as [_ Hs].
  destruct (Ascii.eqb c "/"); [discriminate|]. apply IH, Hx.
Qed.

Lemma basename_from_app s x : forall acc,
  plain x = true ->
  Path.basename_from (acc +:+ String "." x) (s +:+ String "." x)
  = Path.basename_from acc s +:+ String "." x.
Proof.
  induction s as [|c s IH]; intros acc Hp; simpl.
  - apply basename_from_plain. exact Hp.
  - destruct (Ascii.eqb c "/"); apply IH; exact Hp.
Qed.

Lemma ext_from_plain x : forall lead,
  plain x = true -> Path.ext_from lead x = EmptyString.
Proof.
  induction x as [|c x IH]; intros lead; simpl; [reflexivity|].
  intros Hp. apply andb_prop in Hp as [Hc Hx]. apply andb_prop in Hc as [Hd _].
  rewrite (IH _ Hx). simpl. destruct (Ascii.eqb c "."); [discriminate|].
  reflexivity.
Qed.

Lemma ext_from_app b x : forall lead,
  plain x = true ->
  Path.ext_from lead (b +:+ String "." x)
  = if lead || has_nondot b then String "." x else EmptyString.
Proof.
  induction b as [|c b IH]; intros lead Hp.
  - simpl. rewrite (ext_from_plain _ _ Hp). simpl.
    rewrite !orb_false_r. destruct lead; reflexivity.
  - change (String c b +:+ String "." x) with (String c (b +:+ String "." x)).
    cbn [Path.ext_from has_nondot]. rewrite (IH _ Hp).
    destruct lead, (Ascii.eqb c "."), (has_nondot b); reflexivity.
Qed.

(** The extension that [os.path.splitext] finds in a name that ends in a dot
    and letters: those letters with the dot, unless only dots come before
    in the last component of the name. *)
Lemma splitext_ext_app p x :
  plain x = true ->
  Path.splitext_ext (p +:+ String "." x)
  = if has_nondot (Path.basename p) then String "." x else EmptyString.
Proof.
  intros Hp. unfold Path.splitext_ext, Path.basename.
  rewrite (basename_from_app p x p Hp), (ext_from_app _ _ false Hp).
  reflexivity.
Qed.

Section ReaderProperties.
Context `{PyFloat}.

(** X5: [read_file] returns [None] exactly on an argument that is a path:
    a path is never opened, whatever its extension, and an uploaded file
    always yields a list or an exception. *)
Theorem read_file_None_iff_path (file : file_arg) :
  read_file file = Ok None <-> exists p, file = PathLike p.
Proof.
  destruct file as [p|f]; split.
  - intros _. exists p. reflexivity.
  - intros _. reflexivity.
  - intros Hnone. destruct (read_file_uploaded_not_None f Hnone).
  - intros [p Hp]. discriminate Hp.
Qed.

(** X6: for an uploaded file [read_file] looks at nothing of the name but
    its extension in lower case: two uploads of the same bytes whose
    extensions agree up to the case of the letters are read alike. With
    another extension than [.kml] and [.kmz] the bytes are never looked at
    and the call raises: the [ValueError] of the temporary file when the
    extension holds the code point 0, else the [OSError] of the temporary
    file when the extension is longer than 244 bytes, so that the name of
    the temporary file passes 255 bytes, and else the [ValueError] of line
    68. *)
Theorem read_file_extension_only (n1 n2 : string) (d d' : file_data) :
  (Str.lower (Path.splitext_ext n1) = Str.lower (Path.splitext_ext n2) ->
   read_file (Uploaded (mkUploadedFile n1 d))
   = read_file (Uploaded (mkUploadedFile n2 d)))
  /\ (Str.lower (Path.splitext_ext n1) <> ".kml" ->
      Str.lower (Path.splitext_ext n1) <> ".kmz" ->
      read_file (Uploaded (mkUploadedFile n1 d))
      = read_file (Uploaded (mkUploadedFile n1 d'))
      /\ read_file (Uploaded (mkUploadedFile n1 d))
         = if has_nul (Str.lower (Path.splitext_ext n1))
           then Raise ValueError
           else if (244 <? utf8_length (Str.lower (Path.splitext_ext n1)))%nat
                then Raise OSError
                else Raise ValueError).
Proof.
  split.
  - intros Hext. simpl. rewrite Hext. reflexivity.
  - intros Hkml Hkmz.
    rewrite (proj2 (proj2 (read_file_dispatch (mkUploadedFile n1 d)))
               Hkml Hkmz).
    rewrite (proj2 (proj2 (read_file_dispatch (mkUploadedFile n1 d')))
               Hkml Hkmz).
    split; reflexivity.
Qed.

(** X7: a name that the test of line 135 accepts for its ending [.kml] is
    read by [read_file] as a KML file, and one accepted for [.kmz] as an
    archive, unless only dots come before the extension in the last
    component of the name ([.kml], [dir/..kmz]): [splitext] then finds no
    extension and [read_file] raises [ValueError]. *)
Theorem accepted_name_reader (f : UploadedFile) :
  (Str.endswith ".kml" (name f) = true ->
   exists p, name f = p +:+ ".kml"
     /\ read_file (Uploaded f)
        = if has_nondot (Path.basename p)
          then (try! coords <- read_kml_file (data f); Ok (Some coords))
          else Raise ValueError)
  /\ (Str.endswith ".kmz" (name f) = true ->
      exists p, name f = p +:+ ".kmz"
        /\ read_file (Uploaded f)
           = if has_nondot (Path.basename p)
             then (try! coords <- read_kmz_file (data f); Ok (Some coords))
             else Raise ValueError).
Proof.
  split; intros Hend; destruct (endswith_prefix _ _ Hend) as [p Hp];
    exists p; (split; [exact Hp|]); destruct f as [n d]; simpl in Hp; subst n;
    unfold read_file; cbn [name data];
    first [rewrite (splitext_ext_app p "kml" eq_refl)
          |rewrite (splitext_ext_app p "kmz" eq_refl)];
    destruct (has_nondot (Path.basename p)); reflexivity.
Qed.







End ReaderProperties.

(** ** The list object and the other objects *)

Section MetricsProperties.
Context `{PyFloat} `{Shapely}.

Lemma closure_nil : closure [] = ([] : list coord).
Proof. reflexivity. Qed.

(** Whatever the function returns or raises, the list object holds the
    closure of its items afterwards. *)
Lemma calcular_heap (h : heap) r l :
  h !! r = Some l ->
  snd (calcular_superficie_hectareas (PyList r) h) = <[r := closure l]> h.
Proof.
  intros Hr. destruct l as [|c l].
  - rewrite calcular_empty by (apply items_lookup; exact Hr).
    rewrite closure_nil, list_insert_id; [reflexivity|exact Hr].
  - rewrite (calcular_run _ _ _ _ Hr). reflexivity.
Qed.

Lemma closure_tail (l : list coord) :
  exists tail, closure l = l ++ tail /\ (length tail <= 1)%nat.
Proof.
  destruct l as [|c l].
  - exists []. split; [reflexivity|simpl; lia].
  - rewrite closure_cons. destruct (decide _).
    + exists []. rewrite app_nil_r. split; [reflexivity|simpl; lia].
    + exists [c]. split; [reflexivity|simpl; lia].
Qed.

(** X9: the function changes no list object but its argument, creates and
    removes none, and leaves in its argument the items it found followed by
    at most one more; afterwards the first and the last item of the argument
    are equal. This holds also when the function raises. *)
Theorem calcular_touches_only_its_list (h : heap) r l :
  h !! r = Some l ->
  length (snd (calcular_superficie_hectareas (PyList r) h)) = length h
  /\ (forall r', r' <> r ->
        snd (calcular_superficie_hectareas (PyList r) h) !! r' = h !! r')
  /\ exists tail,
       snd (calcular_superficie_hectareas (PyList r) h) !! r = Some (l ++ tail)
       /\ (length tail <= 1)%nat
       /\ list.last (l ++ tail) = head (l ++ tail).
Proof.
  intros Hr. rewrite (calcular_heap _ _ _ Hr). split; [|split].
  - apply length_insert.
  - intros r' Hne. apply list_lookup_insert_ne. congruence.
  - destruct (closure_tail l) as (tail & Hcl & Hlen). exists tail.
    rewrite list_lookup_insert_eq by (eapply lookup_lt_Some; exact Hr).
    split; [rewrite Hcl; reflexivity|]. split; [exact Hlen|].
    rewrite <- Hcl. destruct l as [|c l]; [reflexivity|].
    apply closure_closed.
Qed.

(** X10: a second call on the same list object returns what the first call
    returned and appends nothing more. *)
Theorem calcular_twice (h : heap) r c l :
  h !! r = Some (c :: l) ->
  calcular_superficie_hectareas (PyList r)
    (snd (calcular_superficie_hectareas (PyList r) h))
  = calcular_superficie_hectareas (PyList r) h.
Proof.
  intros Hr. rewrite (calcular_run _ _ _ _ Hr). cbn [snd].
  assert (Hr' : <[r := closure (c :: l)]> h !! r = Some (closure (c :: l))).
  { apply list_lookup_insert_eq. eapply lookup_lt_Some. exact Hr. }
  pose proof (closure_idempotent (c :: l)) as Hid.
  destruct (closure (c :: l)) as [|c' l'] eqn:Hcl.
  - rewrite closure_cons in Hcl. destruct (decide _); discriminate.
  - rewrite (calcular_run _ _ _ _ Hr'), Hid, list_insert_insert_eq.
    reflexivity.
Qed.

End MetricsProperties.

(** ** What the loop records *)

Section LoopProperties.
Context `{PyFloat} `{Shapely}.

(** X12: a file whose name fails the test of line 135 is recorded by its
    name alone and its bytes are never read; an accepted file on which
    [read_file] raises is recorded with that exception; an accepted file in
    which [read_file] finds no coordinate is recorded with the [IndexError]
    of [coords[0]]. None of the three adds a row. *)
Theorem loop_records_failures (f : UploadedFile) :
  (Str.endswith ".kmz" (name f) || Str.endswith ".kml" (name f) = false ->
   transformar [f] = mkState [] [] [Ignored (name f)])
  /\ (Str.endswith ".kmz" (name f) || Str.endswith ".kml" (name f) = true ->
      forall e, read_file (Uploaded f) = Raise e ->
      transformar [f] = mkState [] [] [Failed (name f) e])
  /\ (Str.endswith ".kmz" (name f) || Str.endswith ".kml" (name f) = true ->
      read_file (Uploaded f) = Ok (Some []) ->
      transformar [f] = mkState [[]] [] [Failed (name f) IndexError]).
Proof.
  rewrite transformar_one. unfold process_file.
  split; [|split].
  - intros ->. reflexivity.
  - intros -> e He. cbn [negb st_heap]. rewrite try_body_run, He. reflexivity.
  - intros -> He. cbn [negb st_heap]. rewrite try_body_run, He. reflexivity.
Qed.

(** X13: an accepted file in which [read_file] finds coordinates that,
    once closed, are three or more yields no error and one row: its name,
    the coordinates closed, and the text and the area that the metrics
    return for the closed coordinates. With fewer coordinates once closed,
    as for a file with one point, the polygon cannot be built: the file
    gets no row and is recorded with the [ValueError]. Coordinates that are
    closed already are stored as they were read. *)
Theorem row_of_file (f : UploadedFile) (c : coord) (l : list coord) :
  Str.endswith ".kmz" (name f) || Str.endswith ".kml" (name f) = true ->
  read_file (Uploaded f) = Ok (Some (c :: l)) ->
  ((3 <= length (closure (c :: l)))%nat ->
   errores (transformar [f]) = []
   /\ exists centroid sup,
        polygon_metrics (closure (c :: l)) = Ok (sup, centroid)
        /\ report_rows (transformar [f])
           = [(name f, Some (closure (c :: l)), centroid, sup)])
  /\ ((length (closure (c :: l)) < 3)%nat ->
      report_rows (transformar [f]) = []
      /\ errores (transformar [f]) = [Failed (name f) ValueError])
  /\ (Some c = list.last (c :: l) -> closure (c :: l) = c :: l).
Proof.
  intros Hname Hread. rewrite transformar_one.
  unfold process_file, report_rows. rewrite Hname. cbn [negb st_heap].
  rewrite try_body_run, Hread. split; [|split].
  - intros Hlong. rewrite (polygon_metrics_long _ Hlong).
    split; [reflexivity|]. eexists _, _. split; [reflexivity|].
    cbn [df st_heap map app]. unfold shown_row, items. simpl. reflexivity.
  - intros Hshort. rewrite (polygon_metrics_short _ Hshort).
    split; reflexivity.
  - intros He. rewrite closure_cons.
    destruct (decide _); [reflexivity|contradiction].
Qed.

(** X14: a KML upload whose document has no [kml:coordinates] element below
    its root, as when the elements carry no namespace or another one, makes
    [parse_kml] return the empty list without an error; the file then gets
    no row but the [IndexError] of the metrics. *)
Theorem no_coordinates_no_row (f : UploadedFile) (root : Element) :
  Str.endswith ".kml" (name f) = true ->
  Str.lower (Path.splitext_ext (name f)) = ".kml" ->
  as_text (data f) = Some (WellFormed root) ->
  (forall e, below root e -> tag e <> kml_coordinates) ->
  parse_kml (WellFormed root) = Ok []
  /\ report_rows (transformar [f]) = []
  /\ errores (transformar [f]) = [Failed (name f) IndexError].
Proof.
  intros Hend Hext Htext Hnone.
  assert (Hparse : parse_kml (WellFormed root) = Ok []).
  { simpl. rewrite (findall_coordinates_none _ Hnone). reflexivity. }
  split; [exact Hparse|].
  rewrite transformar_one. unfold process_file, report_rows.
  rewrite Hend, orb_true_r. cbn [negb st_heap]. rewrite try_body_run.
  rewrite (proj1 (read_file_dispatch f) Hext).
  unfold read_kml_file, decode_utf8. rewrite Htext. cbn [obind].
  rewrite Hparse. split; reflexivity.
Qed.

Lemma one_file_count (f : UploadedFile) :
  (length (report_rows (transformar [f]))
   + length (errores (transformar [f])) = 1)%nat.
Proof.
  destruct (transformar_one_outcome f)
    as [(-> & cs & t & s & ->)|(-> & e & -> & _)]; reflexivity.
Qed.

Lemma batch_flat_map (files : list UploadedFile) :
  (length (flat_map (fun f => report_rows (transformar [f])) files)
   + length (flat_map (fun f => errores (transformar [f])) files)
   = length files)%nat
  /\ (flat_map (fun f => report_rows (transformar [f])) files = []
      <-> Forall (fun f => errores (transformar [f]) <> []) files)
  /\ (flat_map (fun f => errores (transformar [f])) files = []
      <-> Forall (fun f => errores (transformar [f]) = []) files).
Proof.
  induction files as [|f files (IHn & IHr & IHe)]; cbn [flat_map].
  - split; [reflexivity|]. split; split; auto.
  - pose proof (one_file_count f) as Hone. rewrite !length_app.
    split; [cbn [length]; lia|].
    destruct (transformar_one_outcome f)
      as [(He & cs & t & s & Hr)|(Hr & e & He & _)]; rewrite Hr, He;
      cbn [app].
    + split; split.
      * discriminate.
      * intros Hall. inversion Hall as [|? ? Hf _]. destruct (Hf He).
      * intros Hnil. constructor; [exact He|apply IHe; exact Hnil].
      * intros Hall. inversion Hall; subst. apply IHe. assumption.
    + split; split.
      * intros Hnil. constructor; [rewrite He; discriminate|].
        apply IHr. exact Hnil.
      * intros Hall. inversion Hall; subst. apply IHr. assumption.
      * discriminate.
      * intros Hall. inversion Hall as [|? ? Hf _]. rewrite He in Hf.
        discriminate Hf.
Qed.

(** X15: every file of a batch is accounted for once: the rows and the
    errors together are as many as the files; the table is empty, the case
    of the warning of line 164, exactly when every file fails on its own,
    and the list of errors is empty exactly when every file succeeds. *)
Theorem batch_accounts_for_every_file (files : list UploadedFile) :
  (length (df (transformar files)) + length (errores (transformar files))
   = length files)%nat
  /\ (df (transformar files) = []
      <-> Forall (fun f => errores (transformar [f]) <> []) files)
  /\ (errores (transformar files) = []
      <-> Forall (fun f => errores (transformar [f]) = []) files).
Proof.
  assert (Hrows : length (df (transformar files))
                  = length (report_rows (transformar files)))
    by (unfold report_rows; rewrite length_map; reflexivity).
  assert (Hdf : df (transformar files) = []
                <-> report_rows (transformar files) = []).
  { unfold report_rows. destruct (df (transformar files)); split;
      intros Heq; try reflexivity; discriminate Heq. }
  rewrite Hrows, Hdf.
  destruct (transformar_batch files) as [-> ->].
  apply batch_flat_map.
Qed.

End LoopProperties.

(** ** The further properties on examples *)

Lemma parse_line_errors_iff_witness :
  IndexError = IndexError \/ IndexError = ValueError.
Proof.
  apply (proj2 (proj2 (@parse_line_errors_iff decimal "12.5")) IndexError).
  vm_compute. reflexivity.
Defined.

Lemma parse_elem_lines_witness :
  @parse_elem decimal (mkElement kml_coordinates (Some "   ") []) = Ok [].
Proof.
  apply (proj2 (proj2 (@parse_elem_lines decimal kml_coordinates "   " []))).
  reflexivity.
Defined.

Lemma read_file_extension_only_witness :
  @read_file decimal (Uploaded (mkUploadedFile "notas.txt" (text_file NotWellFormed)))
  = @read_file decimal (Uploaded (mkUploadedFile "notas.txt" (FileData None None)))
  /\ @read_file decimal
       (Uploaded (mkUploadedFile "notas.txt" (text_file NotWellFormed)))
     = Raise ValueError.
Proof.
  apply (proj2 (@read_file_extension_only decimal "notas.txt" "notas.txt"
                  (text_file NotWellFormed) (FileData None None))).
  - vm_compute. discriminate.
  - vm_compute. discriminate.
Defined.

Lemma accepted_name_reader_witness :
  exists p, ".kml" = p +:+ ".kml"
    /\ @read_file decimal (Uploaded (mkUploadedFile ".kml" (FileData None None)))
       = if has_nondot (Path.basename p)
         then (try! coords <- @read_kml_file decimal (FileData None None);
               Ok (Some coords))
         else Raise ValueError.
Proof.
  apply (proj1 (@accepted_name_reader decimal
                  (mkUploadedFile ".kml" (FileData None None)))).
  reflexivity.
Defined.


Lemma calcular_touches_only_its_list_witness :
  length (snd (@calcular_superficie_hectareas decimal planar (PyList 1%nat)
                 [unit_square; rectangle]))
  = length [unit_square; rectangle]
  /\ (forall r', r' <> 1%nat ->
        snd (@calcular_superficie_hectareas decimal planar (PyList 1%nat)
               [unit_square; rectangle]) !! r'
        = [unit_square; rectangle] !! r')
  /\ exists tail,
       snd (@calcular_superficie_hectareas decimal planar (PyList 1%nat)
              [unit_square; rectangle]) !! 1%nat
       = Some (rectangle ++ tail)
       /\ (length tail <= 1)%nat
       /\ list.last (rectangle ++ tail) = head (rectangle ++ tail).
Proof.
  apply (@calcular_touches_only_its_list decimal planar
           [unit_square; rectangle] 1%nat rectangle).
  reflexivity.
Defined.

Lemma calcular_twice_witness :
  @calcular_superficie_hectareas decimal planar (PyList 0%nat)
    (snd (@calcular_superficie_hectareas decimal planar (PyList 0%nat) [rectangle]))
  = @calcular_superficie_hectareas decimal planar (PyList 0%nat) [rectangle].
Proof.
  apply (@calcular_twice decimal planar [rectangle] 0%nat (Qc_of_Z 0, Qc_of_Z 0)
           [(Qc_of_Z 2, Qc_of_Z 0); (Qc_of_Z 2, Qc_of_Z 1);
            (Qc_of_Z 0, Qc_of_Z 1)]).
  reflexivity.
Defined.

Lemma loop_records_failures_witness :
  @transformar decimal planar [mkUploadedFile "datos.kmz" (text_file NotWellFormed)]
  = mkState [] [] [Failed "datos.kmz" BadZipFile].
Proof.
  apply (proj1 (proj2 (@loop_records_failures decimal planar
                  (mkUploadedFile "datos.kmz" (text_file NotWellFormed))))).
  - reflexivity.
  - reflexivity.
Defined.

Lemma row_of_file_witness :
  let f := mkUploadedFile "punto.kml"
             (text_file (placemark_document (Some "1,2"))) in
  report_rows (@transformar decimal planar [f]) = []
  /\ errores (@transformar decimal planar [f])
     = [Failed "punto.kml" ValueError].
Proof.
  intros f.
  apply (proj1 (proj2 (@row_of_file decimal planar f
                         (Qc_of_Z 1, Qc_of_Z 2) []
                         eq_refl
                         ltac:(vm_compute; qc_parts)))).
  vm_compute. lia.
Defined.

Lemma no_coordinates_no_row_witness :
  let f := mkUploadedFile "sin_namespace.kml"
             (text_file (WellFormed unqualified_document)) in
  @parse_kml decimal (WellFormed unqualified_document) = Ok []
  /\ report_rows (@transformar decimal planar [f]) = []
  /\ errores (@transformar decimal planar [f])
     = [Failed "sin_namespace.kml" IndexError].
Proof.
  intros f.
  apply (@no_coordinates_no_row decimal planar f unqualified_document).
  - reflexivity.
  - reflexivity.
  - reflexivity.
  - intros e Hbelow.
    inversion Hbelow as [r c Hc|r c e0 Hc Hdeep]; subst; simpl in Hc;
      destruct Hc as [<-|[]]; [discriminate|].
    inversion Hdeep as [r c Hc|r c e1 Hc Hdeeper]; subst; simpl in Hc;
      destruct Hc as [<-|[]]; [discriminate|].
    inversion Hdeeper as [r c Hc|r c e2 Hc _]; subst; simpl in Hc;
      destruct Hc.
Defined.
